(** * biorad: selector and estimator adapters, and the experiment driver script

    A shallow embedding of
      - [model_comparison/algorithms/classification.py]
      - [model_comparison/algorithms/feature_selection.py]
      - [experiment/tests/test_experiment.py]

    Python objects are records, attribute mutation is explicit state passing,
    exceptions are an outcome type, and local and module-level names are
    looked up in finite maps so that an unbound name raises [NameError]
    by computation. *)

From Stdlib Require Import ZArith QArith Qminmax Lqa Ascii String List Lia.
From stdpp Require Import base option list gmap strings.

Local Open Scope string_scope.
Local Open Scope Z_scope.

(** ** Python values, exceptions and the state/exception monad *)

Module Py.

(** Python floats: a finite float is a (dyadic) rational; the two
    infinities and NaN are kept apart because comparison and [int()]
    treat them specially. *)
Inductive pyfloat : Type :=
| Finite (q : Q)
| Infinity (negative : bool)
| NaN.

(** The values an estimator attribute such as [num_neighbors] holds. *)
Inductive pyval : Type :=
| PyNone
| PyInt (n : Z)
| PyFloat (f : pyfloat).

(** Literal constants that occur as categorical choices. *)
Inductive pyconst : Type :=
| KStr (s : string)
| KInt (n : Z)
| KBool (b : bool)
| KFloat (q : Q)
| KNone.

Definition pyconst_eqb (a b : pyconst) : bool :=
  match a, b with
  | KStr s, KStr t => String.eqb s t
  | KInt m, KInt n => Z.eqb m n
  | KBool x, KBool y => Bool.eqb x y
  | KFloat p, KFloat q => Qeq_bool p q
  | KNone, KNone => true
  | _, _ => false
  end.

Inductive exn : Type :=
| NameError (name : string)
| TypeError (msg : string)
| ValueError (msg : string)
| OverflowError (msg : string)
| RuntimeError (msg : string).

Inductive outcome (A : Type) : Type :=
| Returns (a : A)
| Raises (e : exn).
Arguments Returns {A} a.
Arguments Raises {A} e.

Definition returned {A} (o : outcome A) : bool :=
  match o with Returns _ => true | Raises _ => false end.

Definition obind {A B} (o : outcome A) (k : A -> outcome B) : outcome B :=
  match o with
  | Returns a => k a
  | Raises e => Raises e
  end.

(** Stateful code that may raise.  A raise keeps the mutations made so
    far, as in Python. *)
Definition SE (St A : Type) : Type := St -> outcome A * St.

Definition ret {St A} (a : A) : SE St A := fun s => (Returns a, s).

Definition bind {St A B} (m : SE St A) (k : A -> SE St B) : SE St B :=
  fun s =>
    match m s with
    | (Returns a, s') => k a s'
    | (Raises e, s') => (Raises e, s')
    end.

Definition raise {St A} (e : exn) : SE St A := fun s => (Raises e, s).

Definition lift {St A} (o : outcome A) : SE St A := fun s => (o, s).

Definition get {St} : SE St St := fun s => (Returns s, s).

Definition modify {St} (f : St -> St) : SE St unit := fun s => (Returns tt, f s).

(** [try: body / except: handler] with a bare [except], which catches
    every exception. *)
Definition try_except {St A} (body : SE St A) (handler : SE St A) : SE St A :=
  fun s =>
    match body s with
    | (Returns a, s') => (Returns a, s')
    | (Raises _, s') => handler s'
    end.

#[export] Instance SE_ret {St} : MRet (SE St) := @ret St.
#[export] Instance SE_bind {St} : MBind (SE St) := fun A B k m => bind m k.

(** *** Comparison and conversion of numbers *)

Definition Qlt_bool (a b : Q) : bool := negb (Qle_bool b a).

(** [v > n] for an integer [n]. *)
Definition py_gt (v : pyval) (n : Z) : outcome bool :=
  match v with
  | PyNone =>
      Raises (TypeError "'>' not supported between instances of 'NoneType' and 'int'")
  | PyInt k => Returns (n <? k)
  | PyFloat (Finite q) => Returns (Qlt_bool (inject_Z n) q)
  | PyFloat (Infinity negative) => Returns (negb negative)
  | PyFloat NaN => Returns false
  end.

(** [v < n] for an integer [n]. *)
Definition py_lt (v : pyval) (n : Z) : outcome bool :=
  match v with
  | PyNone =>
      Raises (TypeError "'<' not supported between instances of 'NoneType' and 'int'")
  | PyInt k => Returns (k <? n)
  | PyFloat (Finite q) => Returns (Qlt_bool q (inject_Z n))
  | PyFloat (Infinity negative) => Returns negative
  | PyFloat NaN => Returns false
  end.

(** [int(v)]: truncation towards zero. *)
Definition py_int (v : pyval) : outcome Z :=
  match v with
  | PyNone =>
      Raises (TypeError "int() argument must be a string, a bytes-like object or a number, not 'NoneType'")
  | PyInt k => Returns k
  | PyFloat (Finite q) => Returns (Z.quot (Qnum q) (Z.pos (Qden q)))
  | PyFloat (Infinity _) =>
      Raises (OverflowError "cannot convert float infinity to integer")
  | PyFloat NaN => Raises (ValueError "cannot convert float NaN to integer")
  end.

(** An int, a finite float or positive infinity: the numbers that either
    exceed an integer bound or can be converted by [int()]. *)
Definition bounded_or_convertible (v : pyval) : bool :=
  match v with
  | PyInt _ | PyFloat (Finite _) | PyFloat (Infinity false) => true
  | PyNone | PyFloat (Infinity true) | PyFloat NaN => false
  end.

(** An int or a finite float: the values [int()] converts. *)
Definition int_convertible (v : pyval) : bool :=
  match v with
  | PyInt _ | PyFloat (Finite _) => true
  | PyNone | PyFloat (Infinity _) | PyFloat NaN => false
  end.

(** [a[:k]] on a sequence: a negative [k] counts from the end, and an
    out-of-range bound is clipped. *)
Definition py_slice_to {A} (a : list A) (k : Z) : list A :=
  if 0 <=? k then take (Z.to_nat k) a
  else take (Z.to_nat (Z.of_nat (length a) + k)) a.

(** [template.format(arg)] for a template with one [{}] field. *)
Fixpoint py_format (template arg : string) : string :=
  match template with
  | String "{"%char (String "}"%char rest) => arg ++ rest
  | String c rest => String c (py_format rest arg)
  | EmptyString => EmptyString
  end.

(** [np.arange(n)] *)
Definition np_arange (n : nat) : list Z := map Z.of_nat (seq 0 n).

End Py.

Import Py.

(** ** The ConfigSpace objects the adapters build

    [UniformIntegerHyperparameter], [UniformFloatHyperparameter],
    [CategoricalHyperparameter], [InCondition] and [ConfigurationSpace]
    come from the ConfigSpace package.  A hyperparameter object is the data
    its constructor was called with; a configuration space is the seed, the
    hyperparameters and the conditions it has been given. *)

Module ConfigSpace.

Inductive Hyperparameter : Type :=
| UniformIntegerHyperparameter
    (name : string) (lower upper : Z) (default_value : option Z)
| UniformFloatHyperparameter
    (name : string) (lower upper : Q) (default_value : option Q)
| CategoricalHyperparameter
    (name : string) (choices : list pyconst) (default_value : option pyconst).

Definition hp_name (h : Hyperparameter) : string :=
  match h with
  | UniformIntegerHyperparameter n _ _ _ => n
  | UniformFloatHyperparameter n _ _ _ => n
  | CategoricalHyperparameter n _ _ => n
  end.

(** A default that was passed explicitly lies in the declared domain. *)
Definition default_in_domain (h : Hyperparameter) : bool :=
  match h with
  | UniformIntegerHyperparameter _ lo hi (Some d) => (lo <=? d) && (d <=? hi)
  | UniformFloatHyperparameter _ lo hi (Some d) => Qle_bool lo d && Qle_bool d hi
  | CategoricalHyperparameter _ cs (Some d) => existsb (pyconst_eqb d) cs
  | _ => true
  end.

(** A value is legal for a hyperparameter. *)
Definition is_legal (h : Hyperparameter) (v : pyconst) : bool :=
  match h, v with
  | UniformIntegerHyperparameter _ lo hi _, KInt d => (lo <=? d) && (d <=? hi)
  | UniformFloatHyperparameter _ lo hi _, KFloat d => Qle_bool lo d && Qle_bool d hi
  | UniformFloatHyperparameter _ lo hi _, KInt d =>
      Qle_bool lo (inject_Z d) && Qle_bool (inject_Z d) hi
  | CategoricalHyperparameter _ cs _, _ => existsb (pyconst_eqb v) cs
  | _, _ => false
  end.

(** [InCondition(child=..., parent=..., values=[...])]; child and parent
    are referred to by hyperparameter name. *)
Record InCondition : Type := {
  child : string;
  parent : string;
  values : list pyconst
}.

Record ConfigurationSpace : Type := {
  seed : option Z;
  hyperparameters : list Hyperparameter;
  conditions : list InCondition
}.

(** [ConfigurationSpace()] *)
Definition empty : ConfigurationSpace :=
  {| seed := None; hyperparameters := []; conditions := [] |}.

Definition names (cs : ConfigurationSpace) : list string :=
  map hp_name (hyperparameters cs).

Definition has_name (n : string) (cs : ConfigurationSpace) : bool :=
  existsb (String.eqb n) (names cs).

Definition get_hyperparameter (n : string) (cs : ConfigurationSpace)
  : option Hyperparameter :=
  find (fun h => String.eqb n (hp_name h)) (hyperparameters cs).

(** [cs.seed(n)] *)
Definition set_seed (n : Z) (cs : ConfigurationSpace) : ConfigurationSpace :=
  {| seed := Some n; hyperparameters := hyperparameters cs;
     conditions := conditions cs |}.

(** [cs.add_hyperparameter(h)]: a name can be added once. *)
Definition add_hyperparameter (h : Hyperparameter) (cs : ConfigurationSpace)
  : outcome ConfigurationSpace :=
  if has_name (hp_name h) cs
  then Raises (ValueError ("Hyperparameter '" ++ hp_name h ++
                           "' is already in the configuration space."))
  else Returns {| seed := seed cs;
                  hyperparameters := hyperparameters cs ++ [h];
                  conditions := conditions cs |}.

Fixpoint add_hyperparameters (hs : list Hyperparameter) (cs : ConfigurationSpace)
  : outcome ConfigurationSpace :=
  match hs with
  | [] => Returns cs
  | h :: hs' => obind (add_hyperparameter h cs) (add_hyperparameters hs')
  end.

(** [cs.add_condition(c)]: child and parent must be in the space and the
    values must be legal for the parent. *)
Definition add_condition (c : InCondition) (cs : ConfigurationSpace)
  : outcome ConfigurationSpace :=
  match get_hyperparameter (parent c) cs with
  | None => Raises (ValueError ("Parent hyperparameter '" ++ parent c ++
                                "' is not in the configuration space."))
  | Some p =>
      if negb (has_name (child c) cs)
      then Raises (ValueError ("Child hyperparameter '" ++ child c ++
                               "' is not in the configuration space."))
      else if negb (forallb (is_legal p) (values c))
      then Raises (ValueError "Illegal value for the parent of a condition.")
      else Returns {| seed := seed cs;
                      hyperparameters := hyperparameters cs;
                      conditions := conditions cs ++ [c] |}
  end.

Fixpoint add_conditions (l : list InCondition) (cs : ConfigurationSpace)
  : outcome ConfigurationSpace :=
  match l with
  | [] => Returns cs
  | c :: l' => obind (add_condition c cs) (add_conditions l')
  end.

(** Activity of a hyperparameter, given the value the configuration
    holds for each name: every condition on the hyperparameter is
    evaluated on the value of its parent, which must be one of the listed
    values; a hyperparameter with no condition is active. *)
Definition is_active (cs : ConfigurationSpace)
    (value_of : string -> option pyconst) (n : string) : bool :=
  forallb
    (fun c =>
       if String.eqb (child c) n
       then match value_of (parent c) with
            | Some v => existsb (pyconst_eqb v) (values c)
            | None => false
            end
       else true)
    (conditions cs).

(** A configuration gives values to hyperparameter names. *)
Definition active (cs : ConfigurationSpace) (cfg : gmap string pyconst)
    (n : string) : bool :=
  is_active cs (fun x => cfg !! x) n.



End ConfigSpace.

Import ConfigSpace.

(** ** Function frames: local names, module names, constructor calls *)

Module Frame.

Inductive pyobj : Type :=
| OInt (n : Z)
| OHyper (h : Hyperparameter)
| OTuple (hs : list Hyperparameter)
| OConfig (cs : ConfigurationSpace)
| OExternal.

(** The state of one call of a property: its local names, the names of
    the module it was defined in, and the hyperparameter constructor
    calls made so far (in call order). *)
Record frame : Type := {
  locals : gmap string pyobj;
  globals : gmap string pyobj;
  declared : list Hyperparameter
}.

Definition enter (module_names : gmap string pyobj) : frame :=
  {| locals := ∅; globals := module_names; declared := [] |}.

(** Reading a name: local scope, then module scope, else [NameError].
    (None of the names read below is a builtin.) *)
Definition load (x : string) : SE frame pyobj :=
  fun f =>
    match locals f !! x with
    | Some v => (Returns v, f)
    | None =>
        match globals f !! x with
        | Some v => (Returns v, f)
        | None => (Raises (NameError x), f)
        end
    end.

(** Binding a local name. *)
Definition store (x : string) (v : pyobj) : SE frame unit :=
  modify (fun f => {| locals := <[x := v]> (locals f);
                      globals := globals f;
                      declared := declared f |}).

(** [x = e] *)
Definition assign (x : string) (e : SE frame pyobj) : SE frame unit :=
  v ← e; store x v.

Definition bounds_ok (h : Hyperparameter) : bool :=
  match h with
  | UniformIntegerHyperparameter _ lo hi _ => lo <? hi
  | UniformFloatHyperparameter _ lo hi _ => Qlt_bool lo hi
  | CategoricalHyperparameter _ _ _ => true
  end.

(** A hyperparameter constructor call.  The call is recorded, then the
    library checks the bounds and the default. *)
Definition construct (h : Hyperparameter) : SE frame pyobj :=
  modify (fun f => {| locals := locals f; globals := globals f;
                      declared := declared f ++ [h] |});;
  if negb (bounds_ok h)
  then raise (ValueError "Upper bound must be larger than lower bound")
  else if negb (default_in_domain h)
  then raise (ValueError "Illegal default value")
  else mret (OHyper h).

(** [ConfigurationSpace()] *)
Definition new_ConfigurationSpace : SE frame pyobj :=
  mret (OConfig ConfigSpace.empty).

Definition as_hyper (v : pyobj) : SE frame Hyperparameter :=
  match v with
  | OHyper h => mret h
  | _ => raise (TypeError "not a hyperparameter")
  end.

Definition as_config (v : pyobj) : SE frame ConfigurationSpace :=
  match v with
  | OConfig cs => mret cs
  | _ => raise (TypeError "not a configuration space")
  end.

(** The tuple [(x1, ..., xn)] of local names, evaluated left to right. *)
Fixpoint load_hypers (xs : list string) : SE frame (list Hyperparameter) :=
  match xs with
  | [] => mret []
  | x :: xs' =>
      v ← load x; h ← as_hyper v; hs ← load_hypers xs'; mret (h :: hs)
  end.

(** [cfg.seed(arg)] *)
Definition call_seed (cfg arg : string) : SE frame unit :=
  c ← load cfg; cs ← as_config c;
  a ← load arg;
  match a with
  | OInt n => store cfg (OConfig (set_seed n cs))
  | _ => raise (TypeError "seed must be an integer")
  end.

(** [cfg.add_hyperparameters((x1, ..., xn))] *)
Definition call_add_hyperparameters (cfg : string) (xs : list string)
  : SE frame unit :=
  c ← load cfg; cs ← as_config c;
  hs ← load_hypers xs;
  cs' ← lift (add_hyperparameters hs cs);
  store cfg (OConfig cs').

(** [InCondition(child=c, parent=p, values=vs)] for local names [c], [p]. *)
Definition new_InCondition (c p : string) (vs : list pyconst)
  : SE frame InCondition :=
  cv ← load c; ch ← as_hyper cv;
  pv ← load p; ph ← as_hyper pv;
  mret {| child := hp_name ch; parent := hp_name ph; values := vs |}.

Fixpoint eval_all {A} (l : list (SE frame A)) : SE frame (list A) :=
  match l with
  | [] => mret []
  | m :: l' => a ← m; r ← eval_all l'; mret (a :: r)
  end.

(** [cfg.add_conditions((c1, ..., cn))] *)
Definition call_add_conditions (cfg : string) (l : list (SE frame InCondition))
  : SE frame unit :=
  c ← load cfg; cs ← as_config c;
  conds ← eval_all l;
  cs' ← lift (add_conditions conds cs);
  store cfg (OConfig cs').

(** [cfg.add_condition(c)] *)
Definition call_add_condition (cfg : string) (m : SE frame InCondition)
  : SE frame unit :=
  c ← load cfg; cs ← as_config c;
  cond ← m;
  cs' ← lift (add_condition cond cs);
  store cfg (OConfig cs').

(** A tuple of constructor calls. *)
Definition tuple (l : list (SE frame pyobj)) : SE frame pyobj :=
  vs ← eval_all l;
  hs ← eval_all (map as_hyper vs);
  mret (OTuple hs).

(** [return x] *)
Definition return_ (x : string) : SE frame pyobj := load x.

(** The module namespace built from a list of bound names. *)
Definition namespace (bound : list (string * pyobj)) : gmap string pyobj :=
  list_to_map bound.

(** Reading the [@property] [body] on an instance whose class lives in a
    module with the names [module_names]. *)
Definition access (body : SE frame pyobj) (module_names : gmap string pyobj)
  : outcome pyobj * frame :=
  body (enter module_names).

Definition space_of (o : outcome pyobj) : option ConfigurationSpace :=
  match o with
  | Returns (OConfig cs) => Some cs
  | _ => None
  end.

(** The configuration space bound to local [config] when the call ended. *)
Definition local_config (f : frame) : option ConfigurationSpace :=
  match locals f !! "config" with
  | Some (OConfig cs) => Some cs
  | _ => None
  end.

(** A computation that leaves the module names as they were, from any
    state. *)
Definition preserves_globals {A} (m : SE frame A) : Prop :=
  forall f, globals (m f).2 = globals f.

End Frame.

Import Frame.

(** ** classification.py *)

Module Classification.

(** [SEED = 0] at module level; the remaining module-level names are
    imports and the classes themselves. *)
Definition SEED : Z := 0.

Definition module_names : gmap string pyobj :=
  namespace
    [ ("__author__", OExternal); ("__email__", OExternal);
      ("base", OExternal); ("SVC", OExternal);
      ("RandomForestClassifier", OExternal);
      ("KNeighborsClassifier", OExternal); ("GaussianNB", OExternal);
      ("LogisticRegression", OExternal); ("PLSRegression", OExternal);
      ("ConfigurationSpace", OExternal); ("InCondition", OExternal);
      ("CategoricalHyperparameter", OExternal);
      ("UniformFloatHyperparameter", OExternal);
      ("UniformIntegerHyperparameter", OExternal);
      ("SEED", OInt SEED);
      ("RFEstimator", OExternal); ("PLSREstimator", OExternal);
      ("LogRegEstimator", OExternal); ("SVCEstimator", OExternal);
      ("GNBEstimator", OExternal); ("KNNEstimator", OExternal) ].

Module RFEstimator.

Definition NAME : string := "RFEstimator".

Definition hparam_space : SE frame pyobj :=
  assign "hparam_space"
    (tuple
       [ construct (UniformIntegerHyperparameter
                      (py_format "{}__random_state" NAME) 0 1000 None);
         construct (UniformIntegerHyperparameter
                      (py_format "{}__n_estimators" NAME) 10 3000 (Some 100));
         construct (CategoricalHyperparameter
                      (py_format "{}__criterion" NAME)
                      [KStr "gini"; KStr "entropy"] (Some (KStr "gini")));
         construct (CategoricalHyperparameter
                      (py_format "{}__max_depth" NAME)
                      [KInt 3; KInt 5; KNone] None);
         construct (CategoricalHyperparameter
                      (py_format "{}__max_features" NAME)
                      [KStr "auto"; KStr "sqrt"; KStr "log2"; KNone] None);
         construct (CategoricalHyperparameter
                      (py_format "{}__bootstrap" NAME)
                      [KBool true; KBool false] (Some (KBool true)));
         construct (UniformFloatHyperparameter
                      (py_format "{}__min_samples_leaf" NAME)
                      (3 # 2) (101 # 2) (Some (1 # 1))) ]);;
  return_ "hparam_space".

End RFEstimator.

Module PLSREstimator.

Definition NAME : string := "PLSREstimator".

Definition config_space : SE frame pyobj :=
  assign "tol"
    (construct (UniformFloatHyperparameter
                  "tol" (1 # 1000000000) (1 # 1000) (Some (1 # 10000000))));;
  assign "n_components"
    (construct (UniformIntegerHyperparameter "n_components" 1 40 (Some 27)));;
  assign "config" new_ConfigurationSpace;;
  call_seed "config" "SEED";;
  call_add_hyperparameters "config" ["tol"; "n_components"];;
  return_ "config".

End PLSREstimator.

Module LogRegEstimator.

Definition NAME : string := "LogRegEstimator".

Definition config_space : SE frame pyobj :=
  assign "random_states"
    (construct (UniformIntegerHyperparameter "random_state" 0 1000 None));;
  assign "C"
    (construct (UniformFloatHyperparameter
                  "C" (1 # 1000) (1000 # 1) (Some (1 # 1))));;
  assign "penalty"
    (construct (CategoricalHyperparameter
                  "penalty" [KStr "l1"; KStr "l2"] (Some (KStr "l2"))));;
  assign "config" new_ConfigurationSpace;;
  call_seed "config" "SEED";;
  call_add_hyperparameters "config" ["random_states"; "C"; "penalty"];;
  return_ "config".

End LogRegEstimator.

Module SVCEstimator.

Definition NAME : string := "SVCEstimator".

Definition config_space : SE frame pyobj :=
  assign "random_states"
    (construct (UniformIntegerHyperparameter "random_state" 0 1000 None));;
  assign "C"
    (construct (UniformFloatHyperparameter
                  "C" (1 # 1000) (1000 # 1) (Some (1 # 1))));;
  assign "shrinking"
    (construct (CategoricalHyperparameter
                  "shrinking" [KBool true; KBool false] (Some (KBool true))));;
  assign "kernel"
    (construct (CategoricalHyperparameter
                  "kernel"
                  [KStr "linear"; KStr "rbf"; KStr "poly"; KStr "sigmoid"]
                  None));;
  assign "gamma"
    (construct (CategoricalHyperparameter
                  "gamma" [KStr "auto"; KStr "value"] (Some (KStr "auto"))));;
  assign "gamma_value"
    (construct (UniformFloatHyperparameter
                  "gamma_value" (1 # 10000) (8 # 1) (Some (1 # 1))));;
  assign "degree"
    (construct (UniformIntegerHyperparameter "degree" 1 5 (Some 3)));;
  assign "coef0"
    (construct (UniformFloatHyperparameter
                  "coef0" (0 # 1) (10 # 1) (Some (0 # 1))));;
  assign "config" new_ConfigurationSpace;;
  call_seed "config" "SEED";;
  call_add_hyperparameters "config"
    ["random_states"; "C"; "shrinking"; "kernel"; "degree"; "coef0";
     "gamma"; "gamma_value"];;
  call_add_conditions "config"
    [ new_InCondition "degree" "kernel" [KStr "poly"];
      new_InCondition "gamma_value" "gamma" [KStr "value"];
      new_InCondition "coef0" "kernel" [KStr "poly"; KStr "sigmoid"];
      new_InCondition "gamma" "kernel"
        [KStr "rbf"; KStr "poly"; KStr "sigmoid"] ];;
  return_ "config".

End SVCEstimator.

(** [GNBEstimator] declares no hyperparameters and no property. *)
Module GNBEstimator.

Definition NAME : string := "GNBEstimator".

End GNBEstimator.

Module KNNEstimator.

Definition NAME : string := "KNNEstimator".

Definition config_space : SE frame pyobj :=
  assign "n_neighbors"
    (construct (UniformIntegerHyperparameter "n_neighbors" 3 100 (Some 5)));;
  assign "leaf_size"
    (construct (UniformIntegerHyperparameter "leaf_size" 10 100 (Some 30)));;
  assign "metric"
    (construct (CategoricalHyperparameter
                  "metric"
                  [KStr "euclidean"; KStr "manhattan"; KStr "chebyshev";
                   KStr "minkowski"]
                  (Some (KStr "minkowski"))));;
  assign "p"
    (construct (UniformIntegerHyperparameter "p" 1 5 (Some 2)));;
  assign "config" new_ConfigurationSpace;;
  call_seed "config" "SEED";;
  call_add_hyperparameters "config" ["n_neighbors"; "leaf_size"; "metric"; "p"];;
  call_add_condition "config"
    (new_InCondition "p" "metric" [KStr "minkowski"]);;
  return_ "config".

End KNNEstimator.

End Classification.

(** ** feature_selection.py *)

Module FeatureSelection.

Definition SEED : Z := 0.

Definition module_names : gmap string pyobj :=
  namespace
    [ ("__author__", OExternal); ("__email__", OExternal);
      ("warnings", OExternal); ("np", OExternal); ("base", OExternal);
      ("ReliefF", OExternal); ("spearmanr", OExternal); ("chi2", OExternal);
      ("f_classif", OExternal); ("VarianceThreshold", OExternal);
      ("SelectKBest", OExternal); ("check_X_y", OExternal);
      ("MinMaxScaler", OExternal); ("feature_ranking", OExternal);
      ("RFS", OExternal);
      ("ConfigurationSpace", OExternal); ("InCondition", OExternal);
      ("CategoricalHyperparameter", OExternal);
      ("UniformFloatHyperparameter", OExternal);
      ("UniformIntegerHyperparameter", OExternal);
      ("SEED", OInt SEED);
      ("ReliefFSelection", OExternal);
      ("MutualInformationSelection", OExternal) ].

(** A feature matrix is a list of rows; a target is a list of labels. *)
Definition Matrix : Type := list (list Q).
Definition Target : Type := list Q.

(** [np.shape(X)] of a two-dimensional array. *)
Definition np_shape (X : Matrix) : Z * Z :=
  (Z.of_nat (length X),
   Z.of_nat (match X with [] => 0%nat | r :: _ => length r end)).

(** *** sklearn's [MinMaxScaler] with the default range [0, 1] *)

Module MinMaxScaler.

(** The fitted attributes [scale_] and [min_]; [None] before [fit]. *)
Record t : Type := { fitted : option (list Q * list Q) }.

(** [MinMaxScaler()] *)
Definition new : t := {| fitted := None |}.

Definition column (X : Matrix) (j : nat) : list Q :=
  map (fun r => nth j r 0%Q) X.

Definition ncols (X : Matrix) : nat :=
  match X with [] => 0%nat | r :: _ => length r end.

Definition Qlist_min (l : list Q) : Q :=
  match l with [] => 0%Q | x :: l' => fold_left Qmin l' x end.

Definition Qlist_max (l : list Q) : Q :=
  match l with [] => 0%Q | x :: l' => fold_left Qmax l' x end.

(** [scale_ = 1 / (data_max_ - data_min_)], a zero range counting as one;
    [min_ = 0 - data_min_ * scale_]. *)
Definition fit (X : Matrix) : list Q * list Q :=
  let cols := map (column X) (seq 0 (ncols X)) in
  let scale :=
    map (fun c =>
           let range := (Qlist_max c - Qlist_min c)%Q in
           if Qeq_bool range 0 then 1%Q else Qred (/ range)%Q) cols in
  let min_ :=
    map (fun '(c, sc) => Qred (0 - Qlist_min c * sc)%Q) (combine cols scale) in
  (scale, min_).

(** [X * scale_ + min_] *)
Definition transform (p : list Q * list Q) (X : Matrix) : Matrix :=
  map (fun r =>
         map (fun '(x, (sc, mn)) => Qred (x * sc + mn)%Q)
             (combine r (combine (fst p) (snd p)))) X.

(** [fit_transform(X)]: the fitted scaler and the scaled matrix. *)
Definition fit_transform (X : Matrix) : t * Matrix :=
  let p := fit X in ({| fitted := Some p |}, transform p X).

End MinMaxScaler.

(** *** Library code the selectors call

    [check_X_y] is sklearn's input check; [ReliefF_fit nn nf X y] is
    [ReliefF(n_neighbors=nn, n_features_to_keep=nf)] followed by
    [fit(X, y)] and yields [top_features]; [kbest_check_params k X] is
    the validation of [k] that [SelectKBest(k=k).fit] runs on [X] before
    it scores; [kbest_support k scores] is what it then makes of the
    scores ([get_support] with indices); [scoring X y nn rs] stands for
    the mutual-information
    scoring function a deployment would have to bind;
    [check_support] is the method inherited from [base.BaseSelector];
    [method_repr] is the text Python prints for a bound method. *)
Class Collaborators : Type := {
  check_X_y : Matrix -> Target -> outcome (Matrix * Target);
  ReliefF_fit : pyval -> pyval -> Matrix -> Target -> outcome (list Z);
  kbest_check_params : pyval -> Matrix -> outcome unit;
  kbest_support : pyval -> list Q -> outcome (list Z);
  scoring : Matrix -> Target -> pyval -> pyval -> outcome (list Q);
  check_support : list Z -> Matrix -> outcome (list Z);
  method_repr : string
}.

(** The selector object together with the warnings issued so far. *)
Record world (S : Type) : Type := { self : S; warned : list string }.
Arguments self {S} w.
Arguments warned {S} w.

(** [warnings.warn(msg)] *)
Definition warn {S} (msg : string) : SE (world S) unit :=
  modify (fun w => {| self := self w; warned := warned w ++ [msg] |}).

Definition update {S} (f : S -> S) : SE (world S) unit :=
  modify (fun w => {| self := f (self w); warned := warned w |}).

Definition attr {S A} (f : S -> A) : SE (world S) A :=
  w ← get; mret (f (self w)).

(** [a[:k]] where [k] is an attribute value. *)
Definition slice_upto (a : list Z) (k : pyval) : outcome (list Z) :=
  match k with
  | PyInt n => Returns (py_slice_to a n)
  | PyNone => Returns a
  | PyFloat _ =>
      Raises (TypeError "slice indices must be integers or None or have an __index__ method")
  end.

Module ReliefFSelection.

Definition NAME : string := "ReliefFSelection".

(** The attributes [__init__] sets itself; what [base.BaseSelector] keeps
    of [error_handling] plays no part in the methods below. *)
Record t : Type := {
  num_neighbors : pyval;
  num_features : pyval;
  support : option (list Z);
  scaler : option MinMaxScaler.t
}.

(** [__init__] *)
Definition init (num_neighbors num_features : pyval) : t :=
  {| num_neighbors := num_neighbors; num_features := num_features;
     support := None; scaler := None |}.

Definition set_num_neighbors (v : pyval) (o : t) : t :=
  {| num_neighbors := v; num_features := num_features o;
     support := support o; scaler := scaler o |}.

Definition set_num_features (v : pyval) (o : t) : t :=
  {| num_neighbors := num_neighbors o; num_features := v;
     support := support o; scaler := scaler o |}.

Definition set_support (v : option (list Z)) (o : t) : t :=
  {| num_neighbors := num_neighbors o; num_features := num_features o;
     support := v; scaler := scaler o |}.

Definition set_scaler (v : option MinMaxScaler.t) (o : t) : t :=
  {| num_neighbors := num_neighbors o; num_features := num_features o;
     support := support o; scaler := v |}.

Definition config_space : SE frame pyobj :=
  assign "num_neighbors"
    (construct (UniformIntegerHyperparameter "num_neighbors" 10 100 (Some 20)));;
  assign "num_features"
    (construct (UniformIntegerHyperparameter "num_features" 2 50 (Some 20)));;
  assign "config" new_ConfigurationSpace;;
  call_seed "config" "SEED";;
  call_add_hyperparameters "config" ["num_neighbors"; "num_features"];;
  return_ "config".

Section Methods.
Context `{Collaborators}.

Definition _check_X_y (X : Matrix) (y : Target)
  : SE (world t) (Matrix * Target) :=
  '(X, y) ← lift (check_X_y X y);
  sc ← attr scaler;
  match sc with
  | None =>
      update (set_scaler (Some MinMaxScaler.new));;
      let '(fitted, X') := MinMaxScaler.fit_transform X in
      update (set_scaler (Some fitted));;
      mret (X', y)
  | Some _ => mret (X, y)
  end.

Definition _check_params (X : Matrix) : SE (world t) unit :=
  let '(nrows, _) := np_shape X in
  nn ← attr num_neighbors;
  b ← lift (py_gt nn nrows);
  (if b : bool
   then update (set_num_neighbors (PyInt (nrows - 1)))
   else k ← lift (py_int nn); update (set_num_neighbors (PyInt k)));;
  nf ← attr num_features;
  b ← lift (py_lt nf 1);
  (if b : bool
   then k ← lift (py_int nf); update (set_num_features (PyInt k))
   else k ← lift (py_int nf); update (set_num_features (PyInt k))).

(** The body of the [try] block: the candidate support. *)
Definition select (X : Matrix) (y : Target) : SE (world t) (list Z) :=
  nn ← attr num_neighbors;
  nf ← attr num_features;
  top_features ← lift (ReliefF_fit nn nf X y);
  nf ← attr num_features;
  lift (slice_upto top_features nf).

Definition fit (X : Matrix) (y : Target) : SE (world t) t :=
  '(X, y) ← _check_X_y X y;
  _check_params X;;
  _support ← try_except
               (select X y)
               (warn (py_format "Failed to select support with {}" NAME);;
                mret []);
  s ← lift (check_support _support X);
  update (set_support (Some s));;
  attr id.

(** The [try]/[except] of [fit] on its own: the selection's result, or
    the empty list and one more warning. *)
Definition candidate (X : Matrix) (y : Target) (w : world t)
  : list Z * world t :=
  match (select X y w).1 with
  | Returns cand => (cand, w)
  | Raises _ =>
      ([], {| self := self w;
              warned := (warned w
                         ++ [py_format "Failed to select support with {}" NAME])%list |})
  end.

End Methods.

End ReliefFSelection.

Module MutualInformationSelection.

Definition NAME : string := "MutualInformationSelection".

(** The attributes [__init__] sets itself. *)
Record t : Type := {
  num_features : pyval;
  num_neighbors : pyval;
  random_state : pyval;
  support : option (list Z)
}.

(** [__init__] *)
Definition init (num_neighbors num_features random_state : pyval) : t :=
  {| num_features := num_features; num_neighbors := num_neighbors;
     random_state := random_state; support := None |}.

Definition set_num_neighbors (v : pyval) (o : t) : t :=
  {| num_features := num_features o; num_neighbors := v;
     random_state := random_state o; support := support o |}.

Definition set_num_features (v : pyval) (o : t) : t :=
  {| num_features := v; num_neighbors := num_neighbors o;
     random_state := random_state o; support := support o |}.

Definition set_support (v : option (list Z)) (o : t) : t :=
  {| num_features := num_features o; num_neighbors := num_neighbors o;
     random_state := random_state o; support := v |}.

Definition config_space : SE frame pyobj :=
  assign "random_states"
    (construct (UniformIntegerHyperparameter "random_state" 0 1000 None));;
  assign "num_neighbors"
    (construct (UniformIntegerHyperparameter "num_neighbors" 10 100 (Some 20)));;
  assign "config" new_ConfigurationSpace;;
  call_seed "config" "SEED";;
  call_add_hyperparameters "config" ["num_neighbors"; "num_features"];;
  return_ "config".

Section Methods.
Context `{Collaborators}.

Definition _check_X_y (X : Matrix) (y : Target)
  : SE (world t) (Matrix * Target) :=
  lift (check_X_y X y).

(** The nested function of [fit]: the name [mutual_info_classif] is
    read when the function is called; it is not a local of either
    function, so it is looked up among the module names. *)
Definition _mutual_info_classif (o : t) (X : Matrix) (y : Target)
  : outcome (list Q) :=
  match module_names !! "mutual_info_classif" with
  | Some _ => scoring X y (num_neighbors o) (random_state o)
  | None => Raises (NameError "mutual_info_classif")
  end.

(** [SelectKBest(score_func, k=k).fit(X, y).get_support(indices=True)]:
    [k] is validated against [X], then the score function is run on
    [(X, y)], then the [k] best are kept. *)
Definition SelectKBest_support
    (score_func : Matrix -> Target -> outcome (list Q)) (k : pyval)
    (X : Matrix) (y : Target) : outcome (list Z) :=
  obind (kbest_check_params k X)
        (fun _ => obind (score_func X y) (kbest_support k)).

(** The body of the [try] block: the candidate support. *)
Definition select (X : Matrix) (y : Target) : SE (world t) (list Z) :=
  o ← attr id;
  k ← attr num_features;
  lift (SelectKBest_support (_mutual_info_classif o) k X y).

Definition fit (X : Matrix) (y : Target) : SE (world t) t :=
  '(X, y) ← _check_X_y X y;
  _support ← try_except
               (select X y)
               (warn (py_format "Failed support with {}." method_repr);;
                mret []);
  s ← lift (check_support _support X);
  update (set_support (Some s));;
  attr id.

Definition _check_params (X : Matrix) : SE (world t) unit :=
  let '(nrows, _) := np_shape X in
  nn ← attr num_neighbors;
  b ← lift (py_gt nn nrows);
  (if b : bool
   then update (set_num_neighbors (PyInt (nrows - 1)))
   else k ← lift (py_int nn); update (set_num_neighbors (PyInt k)));;
  nf ← attr num_features;
  b ← lift (py_lt nf 1);
  (if b : bool
   then k ← lift (py_int nf); update (set_num_features (PyInt k))
   else k ← lift (py_int nf); update (set_num_features (PyInt k))).

End Methods.

End MutualInformationSelection.

End FeatureSelection.

(** ** experiment/tests/test_experiment.py *)

Module TestExperiment.

(** The callables the script passes by name. *)
Inductive scorer : Type := roc_auc_score.
Inductive selection_scheme : Type := bbc_cv_selection.
Inductive suggester : Type := tpe_suggest.

(** The arguments of one call of [comparison.model_comparison]: nine
    positional arguments, then the keyword arguments. *)
Record model_comparison_call (Data Labels Pipes : Type) : Type := {
  arg_scheme : selection_scheme;
  arg_X : Data;
  arg_y : Labels;
  arg_algo : suggester;
  arg_pipes_and_params : Pipes;
  arg_scoring : scorer;
  arg_cv : Z;
  arg_oob : Z;
  arg_max_evals : Z;
  shuffle : bool;
  verbose : Z;
  random_states : list Z;
  alpha : Q;
  balancing : bool;
  write_prelim : bool;
  error_score : pyval;
  n_jobs : Z;
  path_final_results : string
}.
Arguments arg_scoring {Data Labels Pipes} _.
Arguments arg_cv {Data Labels Pipes} _.
Arguments arg_oob {Data Labels Pipes} _.
Arguments arg_max_evals {Data Labels Pipes} _.
Arguments shuffle {Data Labels Pipes} _.
Arguments random_states {Data Labels Pipes} _.
Arguments balancing {Data Labels Pipes} _.
Arguments write_prelim {Data Labels Pipes} _.
Arguments error_score {Data Labels Pipes} _.

(** The SETUP block. *)
Definition CV : Z := 3.
Definition OOB : Z := 5.
Definition MAX_EVALS : Z := 4.
Definition SCORING : scorer := roc_auc_score.

(** [np.nan] *)
Definition np_nan : pyval := PyFloat NaN.

(** The [__main__] block, given the data set loaded by
    [load_breast_cancer] and the pipelines built by
    [pipelines_from_configs]. *)
Definition main {Data Labels Pipes : Type}
    (X : Data) (y : Labels) (pipes_and_params : Pipes)
  : model_comparison_call Data Labels Pipes :=
  let random_states := np_arange 2 in
  {| arg_scheme := bbc_cv_selection;
     arg_X := X;
     arg_y := y;
     arg_algo := tpe_suggest;
     arg_pipes_and_params := pipes_and_params;
     arg_scoring := SCORING;
     arg_cv := CV;
     arg_oob := OOB;
     arg_max_evals := MAX_EVALS;
     shuffle := true;
     verbose := 0;
     random_states := random_states;
     alpha := 5 # 100;
     balancing := true;
     write_prelim := true;
     error_score := np_nan;
     n_jobs := -1;
     path_final_results := "./../data/test_results.csv" |}.

(** The score [roc_auc_score] stands for: the share of (positive,
    negative) pairs that the scores order correctly, a tie counting for
    one half; undefined when a class is absent. *)
Definition pair_credit (p n : Q) : Q :=
  match (p ?= n)%Q with
  | Gt => 1
  | Eq => 1 # 2
  | Lt => 0
  end.

Definition Qsum (l : list Q) : Q := fold_right Qplus 0%Q l.

Definition auc (y_true : list bool) (y_score : list Q) : outcome Q :=
  let labelled := combine y_true y_score in
  let pos := map snd (List.filter (fun p : bool * Q => fst p) labelled) in
  let neg := map snd (List.filter (fun p : bool * Q => negb (fst p)) labelled) in
  match pos, neg with
  | [], _ | _, [] =>
      Raises (ValueError "Only one class present in y_true. ROC AUC score is not defined in that case.")
  | _, _ =>
      Returns
        (Qsum (map (fun p => Qsum (map (pair_credit p) neg)) pos)
         / inject_Z (Z.of_nat (length pos * length neg)))%Q
  end.

Definition score_function (s : scorer) : list bool -> list Q -> outcome Q :=
  match s with roc_auc_score => auc end.

End TestExperiment.

(** ** The adapters as the pipeline builder sees them *)

Module Registry.

(** An adapter: its [NAME], the property that declares its
    hyperparameters (if it has one) and the names of its module. *)
Record adapter : Type := {
  adapter_name : string;
  property : option (SE frame pyobj);
  module_of : gmap string pyobj
}.

Definition estimator (n : string) (p : option (SE frame pyobj)) : adapter :=
  {| adapter_name := n; property := p;
     module_of := Classification.module_names |}.

Definition selector (n : string) (p : option (SE frame pyobj)) : adapter :=
  {| adapter_name := n; property := p;
     module_of := FeatureSelection.module_names |}.

Definition RF := estimator Classification.RFEstimator.NAME
                   (Some Classification.RFEstimator.hparam_space).
Definition PLSR := estimator Classification.PLSREstimator.NAME
                     (Some Classification.PLSREstimator.config_space).
Definition LogReg := estimator Classification.LogRegEstimator.NAME
                       (Some Classification.LogRegEstimator.config_space).
Definition SVC := estimator Classification.SVCEstimator.NAME
                    (Some Classification.SVCEstimator.config_space).
Definition KNN := estimator Classification.KNNEstimator.NAME
                    (Some Classification.KNNEstimator.config_space).
Definition ReliefF := selector FeatureSelection.ReliefFSelection.NAME
                        (Some FeatureSelection.ReliefFSelection.config_space).
Definition MI := selector FeatureSelection.MutualInformationSelection.NAME
                   (Some FeatureSelection.MutualInformationSelection.config_space).



(** Reading the adapter's property in its module. *)
Definition read (a : adapter) : option (outcome pyobj * frame) :=
  match property a with
  | Some body => Some (access body (module_of a))
  | None => None
  end.


Definition outcome_of (r : option (outcome pyobj * frame)) : option (outcome pyobj) :=
  match r with Some (o, _) => Some o | None => None end.

Definition globals_after (r : option (outcome pyobj * frame))
  : option (gmap string pyobj) :=
  match r with Some (_, f) => Some (globals f) | None => None end.


(** The hyperparameters of that space. *)
Definition config_hyperparameters_after (r : option (outcome pyobj * frame))
  : option (list Hyperparameter) :=
  match r with
  | Some (_, f) =>
      match local_config f with
      | Some cs => Some (hyperparameters cs)
      | None => None
      end
  | None => None
  end.

Definition first_outcome (a : adapter) : option (outcome pyobj) :=
  outcome_of (read a).


(** The hyperparameters whose constructors the property calls. *)
Definition declared_hyperparameters (a : adapter) : list Hyperparameter :=
  match read a with
  | Some (_, f) => declared f
  | None => []
  end.


(** The hyperparameters of the value the property returns. *)
Definition returned_hyperparameters (a : adapter) : option (list Hyperparameter) :=
  match read a with
  | Some (Returns (OConfig cs), _) => Some (hyperparameters cs)
  | Some (Returns (OTuple hs), _) => Some hs
  | _ => None
  end.

(** The configuration space the property returns (empty if it returns
    none). *)
Definition returned_space (a : adapter) : ConfigurationSpace :=
  match first_outcome a with
  | Some (Returns (OConfig cs)) => cs
  | _ => ConfigSpace.empty
  end.







End Registry.

(** ** Stand-ins for the library code, used to run the selectors *)

Module StandIn.
Import FeatureSelection.

(** The row-count check of [check_X_y]. *)
Definition shape_check (X : Matrix) (y : Target) : outcome (Matrix * Target) :=
  if (length X =? 0)%nat || (MinMaxScaler.ncols X =? 0)%nat
  then Raises (ValueError "Found array with 0 sample(s) or 0 feature(s)")
  else if negb (length X =? length y)%nat
  then Raises (ValueError "Found input variables with inconsistent numbers of samples")
  else Returns (X, y).

(** Insertion of a feature index into a ranking ordered by decreasing
    key; among equal keys the index inserted last comes first. *)
Fixpoint insert_by (key : nat -> Q) (j : nat) (l : list nat) : list nat :=
  match l with
  | [] => [j]
  | i :: l' =>
      if Qlt_bool (key j) (key i) then i :: insert_by key j l' else j :: i :: l'
  end.

(** A scale-sensitive ranking: features by decreasing spread
    (max - min); it needs [n_neighbors + 1] rows, like a nearest
    neighbour query. *)
Definition spread_ranking (nn nf : pyval) (X : Matrix) (y : Target)
  : outcome (list Z) :=
  match nn with
  | PyInt k =>
      if Z.of_nat (length X) <? k + 1
      then Raises (ValueError "k must be less than or equal to the number of training points")
      else
        let key j := let c := MinMaxScaler.column X j in
                     (MinMaxScaler.Qlist_max c - MinMaxScaler.Qlist_min c)%Q in
        Returns (map Z.of_nat
                   (fold_right (insert_by key) []
                      (seq 0 (MinMaxScaler.ncols X))))
  | _ => Raises (TypeError "n_neighbors must be an integer")
  end.

Definition first_k (k : pyval) (scores : list Q) : outcome (list Z) :=
  match k with
  | PyInt n => Returns (map Z.of_nat (seq 0 (Nat.min (Z.to_nat n) (length scores))))
  | _ => Raises (ValueError "k should be an integer")
  end.

(** [k] must be an int between 0 and the number of columns. *)
Definition check_k (k : pyval) (X : Matrix) : outcome unit :=
  match k with
  | PyInt n =>
      if (0 <=? n) && (n <=? Z.of_nat (MinMaxScaler.ncols X))
      then Returns tt
      else Raises (ValueError "k should be >=0, <= n_features")
  | _ => Raises (TypeError "'<=' not supported between instances of 'int' and 'NoneType'")
  end.

(** An empty candidate selects every column. *)
Definition all_if_empty (cand : list Z) (X : Matrix) : outcome (list Z) :=
  match cand with
  | [] => Returns (map Z.of_nat (seq 0 (MinMaxScaler.ncols X)))
  | _ => Returns cand
  end.

Definition library : Collaborators :=
  {| check_X_y := shape_check;
     ReliefF_fit := spread_ranking;
     kbest_check_params := check_k;
     kbest_support := first_k;
     scoring := fun _ _ _ _ => Returns [];
     check_support := all_if_empty;
     method_repr := "<bound method MutualInformationSelection.__name__>" |}.

Definition X0 : Matrix := [[0; 10]; [4; 30]; [2; 20]]%Q.
Definition y0 : Target := [0; 1; 0]%Q.

End StandIn.

Import FeatureSelection.

(** * Properties *)

(** ** Configuration spaces *)

Section ConfigurationSpaces.
Import Registry.

Ltac solve_In := repeat (first [left; reflexivity | right]).

(** The properties other than the two singled out below return exactly
    the hyperparameters they declare, with every default inside its
    domain. *)
Lemma config_space_sound_elsewhere :
  Forall
    (fun a =>
       exists hs,
         returned_hyperparameters a = Some hs /\
         length hs = length (declared_hyperparameters a) /\
         Forall (fun h => In h hs) (declared_hyperparameters a) /\
         forallb default_in_domain hs = true)
    [PLSR; LogReg; SVC; KNN; ReliefF].
Proof.
  repeat (apply List.Forall_cons;
          [eexists; split; [vm_compute; reflexivity|];
           split; [vm_compute; reflexivity|];
           split; [|vm_compute; reflexivity];
           vm_compute declared_hyperparameters;
           repeat (apply List.Forall_cons; [solve_In|]);
           apply List.Forall_nil|]).
  apply List.Forall_nil.
Qed.

(** C3 (code defect).  Reading [MutualInformationSelection.config_space]
    raises [NameError] on the undefined name [num_features], after the
    [random_state] hyperparameter was built and before anything was
    added to the space; the [min_samples_leaf] hyperparameter of
    [RFEstimator.hparam_space] is declared on [1.5, 50.5] with default
    [1.0], outside the domain, and the constructor rejects it. *)
Theorem C3_config_space_defects :
  first_outcome MI = Some (Raises (NameError "num_features")) /\
  In (UniformIntegerHyperparameter "random_state" 0 1000 None)
     (declared_hyperparameters MI) /\
  config_hyperparameters_after (read MI) = Some [] /\
  first_outcome RF = Some (Raises (ValueError "Illegal default value")) /\
  In (UniformFloatHyperparameter
        "RFEstimator__min_samples_leaf" (3 # 2) (101 # 2) (Some (1 # 1)))
     (declared_hyperparameters RF) /\
  default_in_domain
    (UniformFloatHyperparameter
       "RFEstimator__min_samples_leaf" (3 # 2) (101 # 2) (Some (1 # 1))) = false.
Proof.
  split; [vm_compute; reflexivity|].
  split; [vm_compute; solve_In|].
  split; [vm_compute; reflexivity|].
  split; [vm_compute; reflexivity|].
  split; [vm_compute; solve_In|].
  vm_compute; reflexivity.
Qed.





Lemma pyconst_eqb_str (v : pyconst) (s : string) :
  pyconst_eqb v (KStr s) = true -> v = KStr s.
Proof.
  destruct v; simpl; try discriminate.
  intros H. apply String.eqb_eq in H. congruence.
Qed.

(** Breaks an activity test that evaluated to [true] into the values the
    parents hold. *)
Ltac parent_value :=
  repeat match goal with
         | K : (_ && _)%bool = true |- _ => apply andb_prop in K; destruct K
         | K : (_ || _)%bool = true |- _ =>
             apply orb_true_iff in K; destruct K
         | K : match ?o with Some _ => _ | None => _ end = true |- _ =>
             destruct o as [?v|] eqn:?; [|discriminate K]
         | K : pyconst_eqb _ (KStr _) = true |- _ =>
             apply pyconst_eqb_str in K; subst
         | K : false = true |- _ => discriminate K
         end.

(** X13.  Activity in the two conditional spaces, exactly: each
    conditional hyperparameter is active if and only if its own parent
    holds one of the listed values, and [kernel] and [C], which carry no
    condition, are always active. *)
Lemma activation_is_exact :
  forall (svc knn : ConfigurationSpace) (cfg : gmap string pyconst),
    first_outcome SVC = Some (Returns (OConfig svc)) ->
    first_outcome KNN = Some (Returns (OConfig knn)) ->
    let kernel_in l := exists s, cfg !! "kernel" = Some (KStr s) /\ In s l in
    active svc cfg "kernel" = true /\
    active svc cfg "C" = true /\
    (active svc cfg "degree" = true <-> kernel_in ["poly"]) /\
    (active svc cfg "coef0" = true <-> kernel_in ["poly"; "sigmoid"]) /\
    (active svc cfg "gamma" = true <-> kernel_in ["rbf"; "poly"; "sigmoid"]) /\
    (active svc cfg "gamma_value" = true <-> cfg !! "gamma" = Some (KStr "value")) /\
    (active knn cfg "p" = true <-> cfg !! "metric" = Some (KStr "minkowski")).
Proof.
  intros svc knn cfg Hs Hk kernel_in. subst kernel_in.
  vm_compute in Hs. vm_compute in Hk.
  injection Hs as <-. injection Hk as <-.
  unfold active.
  change (cfg !! "kernel") with ((fun x => cfg !! x) "kernel").
  change (cfg !! "gamma") with ((fun x => cfg !! x) "gamma").
  change (cfg !! "metric") with ((fun x => cfg !! x) "metric").
  generalize (fun x : string => cfg !! x). intros value_of.
  unfold is_active.
  split; [reflexivity|]. split; [reflexivity|].
  split; [|split; [|split; [|split]]]; split.
  - intros H; simpl in H; parent_value.
    eexists; split; [reflexivity|]; cbn [In]; solve_In.
  - intros (s & E & Hin). simpl. rewrite E. cbn [In] in Hin.
    repeat (destruct Hin as [<-|Hin]; [reflexivity|]). destruct Hin.
  - intros H; simpl in H; parent_value;
      (eexists; split; [reflexivity|]; cbn [In]; solve_In).
  - intros (s & E & Hin). simpl. rewrite E. cbn [In] in Hin.
    repeat (destruct Hin as [<-|Hin]; [reflexivity|]). destruct Hin.
  - intros H; simpl in H; parent_value;
      (eexists; split; [reflexivity|]; cbn [In]; solve_In).
  - intros (s & E & Hin). simpl. rewrite E. cbn [In] in Hin.
    repeat (destruct Hin as [<-|Hin]; [reflexivity|]). destruct Hin.
  - intros H; simpl in H; parent_value. reflexivity.
  - intros E. simpl. rewrite E. reflexivity.
  - intros H; simpl in H; parent_value. reflexivity.
  - intros E. simpl. rewrite E. reflexivity.
Qed.

(** C4.  In the space [SVCEstimator.config_space] returns, [degree] is
    active only if [kernel] is [poly], [gamma_value] only if [gamma] is
    [value], [coef0] only if [kernel] is [poly] or [sigmoid], and [gamma]
    only if [kernel] is [rbf], [poly] or [sigmoid]; in the space
    [KNNEstimator.config_space] returns, [p] is active only if [metric] is
    [minkowski]. *)
Theorem C4_conditional_activation :
  forall (svc knn : ConfigurationSpace) (cfg : gmap string pyconst),
    first_outcome SVC = Some (Returns (OConfig svc)) ->
    first_outcome KNN = Some (Returns (OConfig knn)) ->
    (active svc cfg "degree" = true -> cfg !! "kernel" = Some (KStr "poly")) /\
    (active svc cfg "gamma_value" = true -> cfg !! "gamma" = Some (KStr "value")) /\
    (active svc cfg "coef0" = true ->
       cfg !! "kernel" = Some (KStr "poly") \/
       cfg !! "kernel" = Some (KStr "sigmoid")) /\
    (active svc cfg "gamma" = true ->
       cfg !! "kernel" = Some (KStr "rbf") \/
       cfg !! "kernel" = Some (KStr "poly") \/
       cfg !! "kernel" = Some (KStr "sigmoid")) /\
    (active knn cfg "p" = true -> cfg !! "metric" = Some (KStr "minkowski")).
Proof.
  intros svc knn cfg Hs Hk.
  vm_compute in Hs. vm_compute in Hk.
  injection Hs as <-. injection Hk as <-.
  unfold active.
  change (cfg !! "kernel") with ((fun x => cfg !! x) "kernel").
  change (cfg !! "gamma") with ((fun x => cfg !! x) "gamma").
  change (cfg !! "metric") with ((fun x => cfg !! x) "metric").
  generalize (fun x : string => cfg !! x). intros value_of.
  unfold is_active.
  repeat split; intros H; simpl in H; parent_value; auto.
Qed.

Lemma C4_conditional_activation_witness :
  let cfg : gmap string pyconst :=
    list_to_map [("kernel", KStr "poly"); ("gamma", KStr "value");
                 ("metric", KStr "minkowski")] in
  active (returned_space SVC) cfg "degree" = true /\
  active (returned_space SVC) cfg "gamma_value" = true /\
  active (returned_space KNN) cfg "p" = true /\
  cfg !! "kernel" = Some (KStr "poly") /\
  cfg !! "gamma" = Some (KStr "value") /\
  cfg !! "metric" = Some (KStr "minkowski").
Proof.
  intros cfg.
  assert (Hd : active (returned_space SVC) cfg "degree" = true)
    by (vm_compute; reflexivity).
  assert (Hg : active (returned_space SVC) cfg "gamma_value" = true)
    by (vm_compute; reflexivity).
  assert (Hp : active (returned_space KNN) cfg "p" = true)
    by (vm_compute; reflexivity).
  destruct (C4_conditional_activation (returned_space SVC) (returned_space KNN) cfg)
    as (A & B & _ & _ & E);
    [vm_compute; reflexivity | vm_compute; reflexivity |].
  repeat split; auto.
Defined.

(** *** No property rebinds a module-level name *)

Lemma pg_bind {A B} (m : SE frame A) (k : A -> SE frame B) :
  preserves_globals m -> (forall a, preserves_globals (k a)) ->
  preserves_globals (mbind k m).
Proof.
  intros Hm Hk f. unfold mbind, SE_bind, bind.
  specialize (Hm f). destruct (m f) as [[a|e] f']; simpl in *.
  - rewrite Hk. exact Hm.
  - exact Hm.
Qed.

Lemma pg_ret {A} (a : A) : preserves_globals (mret a : SE frame A).
Proof. intros f. reflexivity. Qed.

Lemma pg_raise {A} (e : exn) : preserves_globals (raise e : SE frame A).
Proof. intros f. reflexivity. Qed.

Lemma pg_lift {A} (o : outcome A) : preserves_globals (lift o : SE frame A).
Proof. intros f. reflexivity. Qed.

Lemma pg_load (x : string) : preserves_globals (load x).
Proof.
  intros f. unfold load.
  destruct (locals f !! x); [reflexivity|].
  destruct (globals f !! x); reflexivity.
Qed.

Lemma pg_store (x : string) (v : pyobj) : preserves_globals (store x v).
Proof. intros f. reflexivity. Qed.

Lemma pg_as_hyper (v : pyobj) : preserves_globals (as_hyper v).
Proof. destruct v; intros f; reflexivity. Qed.

Lemma pg_as_config (v : pyobj) : preserves_globals (as_config v).
Proof. destruct v; intros f; reflexivity. Qed.

Lemma pg_new_ConfigurationSpace : preserves_globals new_ConfigurationSpace.
Proof. intros f. reflexivity. Qed.

Create HintDb pg.
#[local] Hint Resolve pg_ret pg_raise pg_lift pg_load pg_store pg_as_hyper
  pg_as_config pg_new_ConfigurationSpace : pg.

Ltac pg :=
  repeat first
    [ apply pg_bind; [|intros ?]
    | solve [auto with pg]
    | match goal with
      | |- preserves_globals (match ?x with _ => _ end) => destruct x
      | |- preserves_globals (if ?x then _ else _) => destruct x
      end ].

Lemma pg_construct (h : Hyperparameter) : preserves_globals (construct h).
Proof.
  unfold construct. apply pg_bind; [intros f; reflexivity|intros _]. pg.
Qed.

Lemma pg_assign (x : string) (e : SE frame pyobj) :
  preserves_globals e -> preserves_globals (assign x e).
Proof. intros He. unfold assign. pg. Qed.

Lemma pg_load_hypers (xs : list string) : preserves_globals (load_hypers xs).
Proof. induction xs as [|x xs IH]; simpl; pg. Qed.


Lemma pg_call_seed (cfg arg : string) : preserves_globals (call_seed cfg arg).
Proof. unfold call_seed. pg. Qed.

Lemma pg_call_add_hyperparameters (cfg : string) (xs : list string) :
  preserves_globals (call_add_hyperparameters cfg xs).
Proof. unfold call_add_hyperparameters. pg. apply pg_load_hypers. Qed.

Lemma pg_new_InCondition (c p : string) (vs : list pyconst) :
  preserves_globals (new_InCondition c p vs).
Proof. unfold new_InCondition. pg. Qed.


Lemma pg_call_add_condition (cfg : string) (m : SE frame InCondition) :
  preserves_globals m -> preserves_globals (call_add_condition cfg m).
Proof. intros Hm. unfold call_add_condition. pg. Qed.

#[local] Hint Resolve pg_construct pg_assign pg_call_seed
  pg_call_add_hyperparameters pg_new_InCondition pg_call_add_condition : pg.





End ConfigurationSpaces.

(** ** The experiment script *)

Section Experiment.
Import TestExperiment.

Lemma pair_credit_bounds (p n : Q) : (0 <= pair_credit p n <= 1)%Q.
Proof.
  unfold pair_credit. destruct (p ?= n)%Q; split; unfold Qle; simpl; lia.
Qed.

Lemma Qsum_map_bounds {A} (f : A -> Q) (c : Q) (l : list A) :
  (forall x, 0 <= f x <= c)%Q ->
  (0 <= Qsum (map f l) <= inject_Z (Z.of_nat (length l)) * c)%Q.
Proof.
  intros Hf. induction l as [|x l IH].
  - simpl. split; [apply Qle_refl|]. rewrite Qmult_0_l. apply Qle_refl.
  - change (Qsum (map f (x :: l))) with (f x + Qsum (map f l))%Q.
    change (length (x :: l)) with (S (length l)).
    rewrite Nat2Z.inj_succ. unfold Z.succ. rewrite inject_Z_plus.
    destruct (Hf x) as [H0 H1]. destruct IH as [I0 I1].
    change (inject_Z 1) with 1%Q.
    split; [lra|].
    rewrite Qmult_plus_distr_l. lra.
Qed.

(** The score returned for any labels and scores lies in [0, 1]. *)
Lemma auc_bounds (y_true : list bool) (y_score : list Q) (r : Q) :
  auc y_true y_score = Returns r -> (0 <= r <= 1)%Q.
Proof.
  unfold auc.
  set (pos := map snd (List.filter _ _)).
  set (neg := map snd (List.filter _ (combine y_true y_score))).
  intros H.
  assert (Hin : forall p : Q,
             (0 <= Qsum (map (pair_credit p) neg)
              <= inject_Z (Z.of_nat (length neg)))%Q).
  { intros p.
    destruct (Qsum_map_bounds (pair_credit p) 1 neg
                (pair_credit_bounds p)) as [L U].
    split; [exact L|]. rewrite Qmult_1_r in U. exact U. }
  pose proof (Qsum_map_bounds
                (fun p => Qsum (map (pair_credit p) neg))
                (inject_Z (Z.of_nat (length neg))) pos Hin) as [L U].
  rewrite <- inject_Z_mult, <- Nat2Z.inj_mul in U.
  assert (Hpos : (0 < inject_Z (Z.of_nat (length pos * length neg)))%Q).
  { destruct pos as [|p0 pos']; [discriminate H|].
    destruct neg as [|n0 neg']; [discriminate H|].
    change 0%Q with (inject_Z 0). rewrite <- Zlt_Qlt.
    simpl length. lia. }
  destruct pos as [|p0 pos'] eqn:Ep; [discriminate H|].
  destruct neg as [|n0 neg'] eqn:En; [discriminate H|].
  injection H as <-.
  split.
  - apply Qle_shift_div_l; [exact Hpos|]. rewrite Qmult_0_l. exact L.
  - apply Qle_shift_div_r; [exact Hpos|]. rewrite Qmult_1_l. exact U.
Qed.

(** C7.  The script calls [model_comparison] with random states [0, 1],
    [CV = 3], [OOB = 5], [MAX_EVALS = 4], the scorer [roc_auc_score] (whose
    value lies in [0, 1]), [error_score] NaN, and shuffling, balancing and
    preliminary writing switched on. *)
Theorem C7_scenario_parameters :
  forall (Data Labels Pipes : Type) (X : Data) (y : Labels) (pipes : Pipes),
    let call := main X y pipes in
    random_states call = [0; 1] /\
    random_states call = np_arange 2 /\
    arg_cv call = 3 /\
    arg_oob call = 5 /\
    arg_max_evals call = 4 /\
    arg_scoring call = roc_auc_score /\
    (forall y_true y_score r,
        score_function (arg_scoring call) y_true y_score = Returns r ->
        (0 <= r <= 1)%Q) /\
    error_score call = PyFloat NaN /\
    shuffle call = true /\
    balancing call = true /\
    write_prelim call = true.
Proof.
  intros Data Labels Pipes X y pipes call.
  repeat (split; [reflexivity|]).
  split; [|repeat split; reflexivity].
  intros y_true y_score r H. simpl in H. exact (auc_bounds _ _ _ H).
Qed.

Lemma C7_scenario_parameters_witness :
  random_states (main tt tt tt) = [0; 1] /\
  score_function (arg_scoring (main tt tt tt))
    [true; false; true] [1 # 2; 1 # 3; 1 # 3]%Q = Returns (3 # 4)%Q /\
  (0 <= 3 # 4 <= 1)%Q.
Proof.
  destruct (C7_scenario_parameters unit unit unit tt tt tt)
    as (A & _ & _ & _ & _ & _ & B & _).
  split; [exact A|].
  split; [vm_compute; reflexivity|].
  apply (B [true; false; true] [1 # 2; 1 # 3; 1 # 3]%Q).
  vm_compute. reflexivity.
Defined.

End Experiment.

(** ** The selectors *)

(** Truncation of a rational that does not exceed a natural bound stays
    below the bound. *)
Lemma truncation_below (q : Q) (n : Z) :
  0 <= n -> Qlt_bool (inject_Z n) q = false ->
  Z.quot (Qnum q) (Z.pos (Qden q)) <= n.
Proof.
  intros Hn H. unfold Qlt_bool in H.
  apply negb_false_iff in H. apply Qle_bool_iff in H.
  unfold Qle in H. simpl in H. rewrite Z.mul_1_r in H.
  destruct (Z.le_gt_cases 0 (Qnum q)) as [Hq|Hq].
  - rewrite Z.quot_div_nonneg by lia.
    apply Z.div_le_upper_bound; lia.
  - assert (Z.quot (Qnum q) (Z.pos (Qden q)) <= 0); [|lia].
    rewrite <- (Z.opp_involutive (Qnum q)), Z.quot_opp_l by lia.
    assert (0 <= Z.quot (- Qnum q) (Z.pos (Qden q))); [|lia].
    apply Z.quot_pos; lia.
Qed.

(** A number that does not exceed [n] converts to an int at most [n]. *)
Lemma py_int_below (v : pyval) (n : Z) :
  0 <= n -> bounded_or_convertible v = true -> py_gt v n = Returns false ->
  exists k, py_int v = Returns k /\ k <= n.
Proof.
  intros Hn Hv Hgt.
  destruct v as [|k|[q|[|]|]]; simpl in *; try discriminate.
  - exists k. split; [reflexivity|].
    injection Hgt as Hgt. apply Z.ltb_ge in Hgt. exact Hgt.
  - eexists. split; [reflexivity|].
    injection Hgt as Hgt. apply truncation_below; assumption.
Qed.

Lemma py_gt_defined (v : pyval) (n : Z) :
  bounded_or_convertible v = true -> exists b, py_gt v n = Returns b.
Proof.
  destruct v as [|k|[q|[|]|]]; simpl; try discriminate; eauto.
Qed.

Ltac run :=
  repeat (progress
            (unfold mbind, SE_bind, bind, mret, SE_ret, ret, lift, attr, update,
               modify, get, try_except, warn, raise, id in *));
  cbn [fst snd self warned] in *.

Ltac red_run := cbv beta iota zeta; cbn [fst snd self warned].

(** The second half of [_check_params] leaves [num_neighbors] alone. *)
Lemma ReliefF_num_features_step (w : world ReliefFSelection.t) :
  let m : SE (world ReliefFSelection.t) unit :=
    nf ← attr ReliefFSelection.num_features;
    b ← lift (py_lt nf 1);
    (if b : bool
     then k ← lift (py_int nf);
          update (ReliefFSelection.set_num_features (PyInt k))
     else k ← lift (py_int nf);
          update (ReliefFSelection.set_num_features (PyInt k))) in
  ReliefFSelection.num_neighbors (self (m w).2)
  = ReliefFSelection.num_neighbors (self w).
Proof.
  intros m. subst m. run.
  destruct (py_lt _ 1) as [[|]|]; cbn; try reflexivity;
    destruct (py_int _); reflexivity.
Qed.

Lemma MI_num_features_step (w : world MutualInformationSelection.t) :
  let m : SE (world MutualInformationSelection.t) unit :=
    nf ← attr MutualInformationSelection.num_features;
    b ← lift (py_lt nf 1);
    (if b : bool
     then k ← lift (py_int nf);
          update (MutualInformationSelection.set_num_features (PyInt k))
     else k ← lift (py_int nf);
          update (MutualInformationSelection.set_num_features (PyInt k))) in
  MutualInformationSelection.num_neighbors (self (m w).2)
  = MutualInformationSelection.num_neighbors (self w).
Proof.
  intros m. subst m. run.
  destruct (py_lt _ 1) as [[|]|]; cbn; try reflexivity;
    destruct (py_int _); reflexivity.
Qed.

(** C8, as stated, fails: with [num_neighbors] the float NaN the
    comparison is false, [int()] raises [ValueError], and the attribute is
    still the float NaN afterwards. *)
Lemma C8_nan_is_not_converted :
  let w := {| self := ReliefFSelection.init (PyFloat NaN) (PyInt 1);
              warned := [] |} in
  ReliefFSelection._check_params StandIn.X0 w
  = (Raises (ValueError "cannot convert float NaN to integer"), w) /\
  ReliefFSelection.num_neighbors
    (self (ReliefFSelection._check_params StandIn.X0 w).2) = PyFloat NaN /\
  ~ (exists k : Z,
        ReliefFSelection.num_neighbors
          (self (ReliefFSelection._check_params StandIn.X0 w).2) = PyInt k) /\
  bounded_or_convertible (PyFloat NaN) = false.
Proof.
  intros w.
  assert (E : ReliefFSelection._check_params StandIn.X0 w
              = (Raises (ValueError "cannot convert float NaN to integer"), w))
    by (vm_compute; reflexivity).
  rewrite E. cbn [snd self ReliefFSelection.num_neighbors w ReliefFSelection.init].
  repeat split; try reflexivity.
  intros [k Hk]. discriminate Hk.
Qed.

(** C8 (amended).  For every matrix [X] with [n] rows and every initial
    [num_neighbors] that is an int, a finite float or positive infinity,
    after [_check_params X] on either selector the attribute is an int
    [k <= n]: [n - 1] if the initial value exceeded [n], the initial
    value converted by [int()] otherwise; an initial [n] is kept. *)
Theorem C8_num_neighbors_after_check_params :
  forall (X : Matrix) (v : pyval),
    bounded_or_convertible v = true ->
    let n := Z.of_nat (length X) in
    exists (b : bool) (k : Z),
      py_gt v n = Returns b /\
      (if b then k = n - 1 else py_int v = Returns k) /\
      k <= n /\
      (v = PyInt n -> k = n) /\
      (forall w : world ReliefFSelection.t,
          ReliefFSelection.num_neighbors (self w) = v ->
          ReliefFSelection.num_neighbors
            (self (ReliefFSelection._check_params X w).2) = PyInt k) /\
      (forall w : world MutualInformationSelection.t,
          MutualInformationSelection.num_neighbors (self w) = v ->
          MutualInformationSelection.num_neighbors
            (self (MutualInformationSelection._check_params X w).2) = PyInt k).
Proof.
  intros X v Hv n.
  assert (Hn : 0 <= n) by (unfold n; lia).
  destruct (py_gt_defined v n Hv) as [b Hb].
  assert (Hk : exists k, (if b then k = n - 1 else py_int v = Returns k) /\ k <= n).
  { destruct b.
    - exists (n - 1). split; [reflexivity|lia].
    - destruct (py_int_below v n Hn Hv Hb) as (k & E & Hle). eauto. }
  destruct Hk as (k & Hk & Hle).
  exists b, k.
  split; [exact Hb|]. split; [exact Hk|]. split; [exact Hle|].
  split.
  { intros ->. simpl in Hb. injection Hb as <-.
    rewrite Z.ltb_irrefl in Hk. simpl in Hk. congruence. }
  split.
  - intros w Hw.
    unfold ReliefFSelection._check_params, np_shape.
    fold n.
    pose proof ReliefF_num_features_step as Hstep.
    run. rewrite Hw, Hb.
    destruct b.
    + cbn. specialize (Hstep
        {| self := ReliefFSelection.set_num_neighbors (PyInt (n - 1)) (self w);
           warned := warned w |}).
      cbn in Hstep. run. rewrite Hstep. subst k. reflexivity.
    + rewrite Hk. cbn. specialize (Hstep
        {| self := ReliefFSelection.set_num_neighbors (PyInt k) (self w);
           warned := warned w |}).
      cbn in Hstep. run. rewrite Hstep. reflexivity.
  - intros w Hw.
    unfold MutualInformationSelection._check_params, np_shape.
    fold n.
    pose proof MI_num_features_step as Hstep.
    run. rewrite Hw, Hb.
    destruct b.
    + cbn. specialize (Hstep
        {| self := MutualInformationSelection.set_num_neighbors (PyInt (n - 1)) (self w);
           warned := warned w |}).
      cbn in Hstep. run. rewrite Hstep. subst k. reflexivity.
    + rewrite Hk. cbn. specialize (Hstep
        {| self := MutualInformationSelection.set_num_neighbors (PyInt k) (self w);
           warned := warned w |}).
      cbn in Hstep. run. rewrite Hstep. reflexivity.
Qed.

Lemma C8_num_neighbors_after_check_params_witness :
  bounded_or_convertible (PyInt 3) = true /\
  exists k,
    ReliefFSelection.num_neighbors
      (self (ReliefFSelection._check_params StandIn.X0
               {| self := ReliefFSelection.init (PyInt 3) (PyInt 1);
                  warned := [] |}).2) = PyInt k /\
    k <= 3.
Proof.
  split; [reflexivity|].
  destruct (C8_num_neighbors_after_check_params StandIn.X0 (PyInt 3) eq_refl)
    as (b & k & _ & _ & Hle & _ & HR & _).
  exists k. split; [apply HR; reflexivity | exact Hle].
Defined.

Section Selectors.
Context {L : Collaborators}.

(** After a [_check_params] that returned, both attributes are ints. *)
Lemma ReliefF_check_params_ints (X : Matrix) (w0 w : world ReliefFSelection.t) :
  ReliefFSelection._check_params X w0 = (Returns tt, w) ->
  exists j k,
    ReliefFSelection.num_neighbors (self w) = PyInt j /\
    ReliefFSelection.num_features (self w) = PyInt k /\
    warned w = warned w0 /\
    ReliefFSelection.scaler (self w) = ReliefFSelection.scaler (self w0) /\
    ReliefFSelection.support (self w) = ReliefFSelection.support (self w0).
Proof.
  unfold ReliefFSelection._check_params, np_shape. run.
  destruct (py_gt _ _) as [[|]|]; cbn; try discriminate.
  - destruct (py_lt _ 1) as [[|]|]; cbn; try discriminate;
      (destruct (py_int _); cbn; [|discriminate]);
      intros H; injection H as <-; cbn; eauto 10.
  - destruct (py_int _); cbn; [|discriminate].
    destruct (py_lt _ 1) as [[|]|]; cbn; try discriminate;
      (destruct (py_int _); cbn; [|discriminate]);
      intros H; injection H as <-; cbn; eauto 10.
Qed.

Lemma py_slice_to_length {A} (a : list A) (k : Z) :
  (length (py_slice_to a k) <= length a)%nat /\
  (0 <= k -> Z.of_nat (length (py_slice_to a k)) <= k).
Proof.
  unfold py_slice_to. destruct (0 <=? k) eqn:E.
  - apply Z.leb_le in E. rewrite length_take. split; lia.
  - apply Z.leb_gt in E. rewrite length_take. split; lia.
Qed.

(** C10 (amended).  When the underlying fit succeeds, the candidate is
    [top_features[:num_features]]; the slice never raises and is never
    longer than the ranking; it has at most [num_features] entries
    whenever [num_features] is not negative. *)
Theorem C10_candidate_is_slice :
  forall (X0 X : Matrix) (y : Target) (w0 w : world ReliefFSelection.t)
         (top : list Z),
    ReliefFSelection._check_params X0 w0 = (Returns tt, w) ->
    ReliefF_fit (ReliefFSelection.num_neighbors (self w))
                (ReliefFSelection.num_features (self w)) X y = Returns top ->
    exists k,
      ReliefFSelection.num_features (self w) = PyInt k /\
      ReliefFSelection.select X y w = (Returns (py_slice_to top k), w) /\
      (length (py_slice_to top k) <= length top)%nat /\
      (0 <= k -> Z.of_nat (length (py_slice_to top k)) <= k).
Proof.
  intros X0 X y w0 w top Hp Hfit.
  destruct (ReliefF_check_params_ints X0 w0 w Hp) as (j & k & _ & Hk & _).
  exists k. split; [exact Hk|].
  split.
  - unfold ReliefFSelection.select. run. rewrite Hfit. cbn.
    rewrite Hk. reflexivity.
  - apply py_slice_to_length.
Qed.

(** The wrapper around the input check issues no warning; once a scaler
    is set it returns the checked matrix as it is. *)
Lemma ReliefF_check_X_y_warned (X : Matrix) (y : Target)
    (w w1 : world ReliefFSelection.t) (o : outcome (Matrix * Target)) :
  ReliefFSelection._check_X_y X y w = (o, w1) -> warned w1 = warned w.
Proof.
  unfold ReliefFSelection._check_X_y. run.
  destruct (check_X_y X y) as [[X1 y1]|e]; cbn.
  - destruct (ReliefFSelection.scaler (self w)); cbn;
      intros H; injection H as _ <-; reflexivity.
  - intros H; injection H as _ <-; reflexivity.
Qed.

Lemma ReliefF_check_X_y_with_scaler (X : Matrix) (y : Target)
    (w : world ReliefFSelection.t) (sc : MinMaxScaler.t) :
  ReliefFSelection.scaler (self w) = Some sc ->
  ReliefFSelection._check_X_y X y w = (check_X_y X y, w).
Proof.
  intros Hsc. unfold ReliefFSelection._check_X_y. run.
  destruct (check_X_y X y) as [[X1 y1]|e]; cbn; [|reflexivity].
  rewrite Hsc. reflexivity.
Qed.

Lemma ReliefF_select_reads_only (X : Matrix) (y : Target)
    (w : world ReliefFSelection.t) :
  (ReliefFSelection.select X y w).2 = w.
Proof.
  unfold ReliefFSelection.select. run.
  destruct (ReliefF_fit _ _ X y); reflexivity.
Qed.

Lemma ReliefF_select_raises (X : Matrix) (y : Target)
    (w : world ReliefFSelection.t) (e : exn) :
  ReliefF_fit (ReliefFSelection.num_neighbors (self w))
              (ReliefFSelection.num_features (self w)) X y = Raises e ->
  ReliefFSelection.select X y w = (Raises e, w).
Proof.
  intros H. unfold ReliefFSelection.select. run. rewrite H. reflexivity.
Qed.

Lemma mutual_info_classif_unbound :
  module_names !! "mutual_info_classif" = None.
Proof. vm_compute. reflexivity. Qed.

(** The mutual-information selection always fails: on the validation
    of [k] or, once that has passed, on the unbound name. *)
Lemma MI_select_raises (X : Matrix) (y : Target)
    (w : world MutualInformationSelection.t) :
  exists e,
    MutualInformationSelection.select X y w = (Raises e, w) /\
    (kbest_check_params (MutualInformationSelection.num_features (self w)) X
     = Returns tt ->
     e = NameError "mutual_info_classif").
Proof.
  unfold MutualInformationSelection.select,
    MutualInformationSelection.SelectKBest_support,
    MutualInformationSelection._mutual_info_classif.
  run. rewrite mutual_info_classif_unbound.
  destruct (kbest_check_params _ X) as [[]|e]; cbn; eauto.
  eexists. split; [reflexivity|]. discriminate.
Qed.

(** C2.  Once the input check has accepted [X] and [y] (and, for ReliefF,
    the parameters have been checked), an exception of the underlying
    selection does not leave [fit]: a warning is issued, the support is
    [check_support] of the empty candidate, and [fit] returns the selector.
    The mutual-information selection raises on every input: the
    [NameError] of the unbound scoring function whenever the validation of
    [k] has passed. *)
Theorem C2_selector_failures_are_caught :
  (forall (X : Matrix) (y : Target) (w w1 w2 : world ReliefFSelection.t)
          (X1 : Matrix) (y1 : Target) (e : exn) (s : list Z),
      ReliefFSelection._check_X_y X y w = (Returns (X1, y1), w1) ->
      ReliefFSelection._check_params X1 w1 = (Returns tt, w2) ->
      ReliefF_fit (ReliefFSelection.num_neighbors (self w2))
                  (ReliefFSelection.num_features (self w2)) X1 y1 = Raises e ->
      check_support [] X1 = Returns s ->
      exists w',
        ReliefFSelection.fit X y w = (Returns (self w'), w') /\
        ReliefFSelection.support (self w') = Some s /\
        warned w'
        = (warned w ++ ["Failed to select support with ReliefFSelection"])%list) /\
  (forall (X : Matrix) (y : Target) (w : world MutualInformationSelection.t)
          (X1 : Matrix) (y1 : Target) (s : list Z),
      check_X_y X y = Returns (X1, y1) ->
      check_support [] X1 = Returns s ->
      (exists e, (MutualInformationSelection.select X1 y1 w).1 = Raises e) /\
      (kbest_check_params (MutualInformationSelection.num_features (self w)) X1
       = Returns tt ->
       (MutualInformationSelection.select X1 y1 w).1
       = Raises (NameError "mutual_info_classif")) /\
      exists w',
        MutualInformationSelection.fit X y w = (Returns (self w'), w') /\
        MutualInformationSelection.support (self w') = Some s /\
        warned w'
        = (warned w ++ [py_format "Failed support with {}." method_repr])%list).
Proof.
  split.
  - intros X y w w1 w2 X1 y1 e s Hc Hp Hfit Hs.
    pose proof (ReliefF_check_X_y_warned _ _ _ _ _ Hc) as W1.
    destruct (ReliefF_check_params_ints _ _ _ Hp) as (_ & _ & _ & _ & W2 & _).
    pose proof (ReliefF_select_raises _ _ _ _ Hfit) as Hsel.
    unfold ReliefFSelection.fit. run.
    rewrite Hc. red_run. rewrite Hp. red_run. rewrite Hsel. red_run. rewrite Hs. red_run.
    eexists {| self := _; warned := _ |}. split; [reflexivity|]. red_run.
    split; [reflexivity|]. rewrite W2, W1. reflexivity.
  - intros X y w X1 y1 s Hc Hs.
    destruct (MI_select_raises X1 y1 w) as (e & Hsel & Hname).
    split; [exists e; rewrite Hsel; reflexivity|].
    split; [intros Hk; rewrite Hsel, (Hname Hk); reflexivity|].
    unfold MutualInformationSelection.fit,
      MutualInformationSelection._check_X_y. run.
    rewrite Hc. red_run. rewrite Hsel. red_run. rewrite Hs. red_run.
    eexists {| self := _; warned := _ |}. split; [reflexivity|]. red_run. split; reflexivity.
Qed.

(** C9.  Whenever [fit] returns, on either selector, the support it leaves
    is [check_support] of the candidate: the selection's result if the
    selection returned, the empty list if it raised.  It is never the
    [None] of the constructor. *)
Theorem C9_support_assigned_on_return :
  (forall (X : Matrix) (y : Target) (w w' : world ReliefFSelection.t)
          (o : ReliefFSelection.t),
      ReliefFSelection.fit X y w = (Returns o, w') ->
      o = self w' /\
      ReliefFSelection.support o <> None /\
      exists X1 y1 w1 w2 s,
        ReliefFSelection._check_X_y X y w = (Returns (X1, y1), w1) /\
        ReliefFSelection._check_params X1 w1 = (Returns tt, w2) /\
        check_support
          (match (ReliefFSelection.select X1 y1 w2).1 with
           | Returns cand => cand
           | Raises _ => []
           end) X1 = Returns s /\
        ReliefFSelection.support o = Some s) /\
  (forall (X : Matrix) (y : Target) (w w' : world MutualInformationSelection.t)
          (o : MutualInformationSelection.t),
      MutualInformationSelection.fit X y w = (Returns o, w') ->
      o = self w' /\
      MutualInformationSelection.support o <> None /\
      exists X1 y1 s,
        check_X_y X y = Returns (X1, y1) /\
        check_support
          (match (MutualInformationSelection.select X1 y1 w).1 with
           | Returns cand => cand
           | Raises _ => []
           end) X1 = Returns s /\
        MutualInformationSelection.support o = Some s).
Proof.
  split.
  - intros X y w w' o.
    unfold ReliefFSelection.fit. run.
    destruct (ReliefFSelection._check_X_y X y w) as [[[X1 y1]|e] w1] eqn:Hc;
      red_run; [|discriminate].
    destruct (ReliefFSelection._check_params X1 w1) as [[[]|e] w2] eqn:Hp;
      red_run; [|discriminate].
    pose proof (ReliefF_select_reads_only X1 y1 w2) as Hw.
    destruct (ReliefFSelection.select X1 y1 w2) as [[cand|e] w3] eqn:Hsel;
      cbn [snd] in Hw; subst w3; red_run.
    + destruct (check_support cand X1) as [s|e] eqn:Hs; red_run; [|discriminate].
      intros H. injection H as <- <-. red_run.
      split; [reflexivity|]. split; [discriminate|].
      exists X1, y1, w1, w2, s. rewrite Hsel. cbn [fst]. auto.
    + destruct (check_support [] X1) as [s|e'] eqn:Hs; red_run; [|discriminate].
      intros H. injection H as <- <-. red_run.
      split; [reflexivity|]. split; [discriminate|].
      exists X1, y1, w1, w2, s. rewrite Hsel. cbn [fst]. auto.
  - intros X y w w' o.
    unfold MutualInformationSelection.fit,
      MutualInformationSelection._check_X_y. run.
    destruct (check_X_y X y) as [[X1 y1]|e] eqn:Hc; red_run; [|discriminate].
    destruct (MI_select_raises X1 y1 w) as (e0 & Hsel & _).
    rewrite Hsel. red_run.
    destruct (check_support [] X1) as [s|e'] eqn:Hs; red_run; [|discriminate].
    intros H. injection H as <- <-. red_run.
    split; [reflexivity|]. split; [discriminate|].
    exists X1, y1, s. rewrite Hsel. cbn [fst]. auto.
Qed.

End Selectors.

Lemma C10_candidate_is_slice_witness :
  let w0 := {| self := ReliefFSelection.init (PyInt 2) (PyInt 1); warned := [] |} in
  @ReliefFSelection.select StandIn.library StandIn.X0 StandIn.y0 w0
  = (Returns [1], w0).
Proof.
  intros w0.
  destruct (@C10_candidate_is_slice StandIn.library StandIn.X0 StandIn.X0
              StandIn.y0 w0 w0 [1; 0])
    as (k & Hk & Hsel & _); [reflexivity | reflexivity |].
  rewrite Hsel. injection Hk as <-. reflexivity.
Defined.

(** C10, as stated, fails: with [num_features = -1] the fit succeeds, the
    slice drops the last ranked feature and keeps one index, which is more
    than [num_features]. *)
Lemma C10_negative_num_features :
  let w0 := {| self := ReliefFSelection.init (PyInt 2) (PyInt (-1));
               warned := [] |} in
  ReliefFSelection._check_params StandIn.X0 w0 = (Returns tt, w0) /\
  @ReliefFSelection.select StandIn.library StandIn.X0 StandIn.y0 w0
  = (Returns [1], w0) /\
  ~ (Z.of_nat (length [1]) <= -1) /\
  (exists o w,
      @ReliefFSelection.fit StandIn.library StandIn.X0 StandIn.y0 w0
      = (Returns o, w) /\
      ReliefFSelection.num_features o = PyInt (-1) /\
      ReliefFSelection.support o = Some [0]).
Proof.
  intros w0.
  split; [vm_compute; reflexivity|].
  split; [vm_compute; reflexivity|].
  split; [simpl; lia|].
  eexists _, _. split; [vm_compute; reflexivity|].
  split; reflexivity.
Qed.

Lemma C2_selector_failures_are_caught_witness :
  let w := {| self := ReliefFSelection.init (PyInt 3) (PyInt 1); warned := [] |} in
  let wm := {| self := MutualInformationSelection.init (PyInt 3) (PyInt 1) PyNone;
               warned := [] |} in
  (exists w',
      @ReliefFSelection.fit StandIn.library StandIn.X0 StandIn.y0 w
      = (Returns (self w'), w') /\
      ReliefFSelection.support (self w') = Some [0; 1] /\
      warned w' = ["Failed to select support with ReliefFSelection"]) /\
  (exists w',
      @MutualInformationSelection.fit StandIn.library StandIn.X0 StandIn.y0 wm
      = (Returns (self w'), w') /\
      MutualInformationSelection.support (self w') = Some [0; 1] /\
      warned w'
      = ["Failed support with <bound method MutualInformationSelection.__name__>."]).
Proof.
  intros w wm.
  destruct (@C2_selector_failures_are_caught StandIn.library) as [HR HM].
  split.
  - edestruct (HR StandIn.X0 StandIn.y0 w) as (w' & Hf & Hs & Hw);
      [ vm_compute; reflexivity
      | vm_compute; reflexivity
      | vm_compute; reflexivity
      | vm_compute; reflexivity
      | exists w'; auto ].
  - edestruct (HM StandIn.X0 StandIn.y0 wm) as (_ & _ & w' & Hf & Hs & Hw);
      [ vm_compute; reflexivity
      | vm_compute; reflexivity
      | exists w'; auto ].
Defined.

Lemma C9_support_assigned_on_return_witness :
  let w := {| self := ReliefFSelection.init (PyInt 2) (PyInt 1); warned := [] |} in
  exists o w',
    @ReliefFSelection.fit StandIn.library StandIn.X0 StandIn.y0 w = (Returns o, w') /\
    ReliefFSelection.support o <> None /\
    ReliefFSelection.support o = Some [0].
Proof.
  intros w.
  destruct (@ReliefFSelection.fit StandIn.library StandIn.X0 StandIn.y0 w)
    as [[o|e] w'] eqn:H; [|vm_compute in H; discriminate].
  exists o, w'. split; [reflexivity|].
  destruct (@C9_support_assigned_on_return StandIn.library) as [HR _].
  destruct (HR StandIn.X0 StandIn.y0 w w' o H) as (_ & Hs & _).
  split; [exact Hs|].
  vm_compute in H. injection H as <- _. reflexivity.
Defined.

(** C6 (code defect).  A second [fit] on the same instance finds the
    scaler already set and hands the unscaled matrix to the selection: on
    a matrix whose second column has the larger spread, a ranking by
    spread selects feature 0 after the first [fit] (on the scaled matrix,
    where the spreads are equal) and feature 1 after the second (on the
    raw matrix). *)
Theorem C6_refit_skips_scaling :
  let w0 := {| self := ReliefFSelection.init (PyInt 2) (PyInt 1); warned := [] |} in
  exists o1 w1 o2 w2,
    @ReliefFSelection.fit StandIn.library StandIn.X0 StandIn.y0 w0 = (Returns o1, w1) /\
    @ReliefFSelection.fit StandIn.library StandIn.X0 StandIn.y0 w1 = (Returns o2, w2) /\
    ReliefFSelection.support o1 = Some [0] /\
    ReliefFSelection.support o2 = Some [1] /\
    (@ReliefFSelection._check_X_y StandIn.library StandIn.X0 StandIn.y0 w0).1
    = Returns ([[0; 0]; [1; 1]; [1 # 2; 1 # 2]]%Q, StandIn.y0) /\
    (@ReliefFSelection._check_X_y StandIn.library StandIn.X0 StandIn.y0 w1).1
    = Returns (StandIn.X0, StandIn.y0).
Proof.
  intros w0.
  eexists _, _, _, _.
  split; [vm_compute; reflexivity|].
  split; [vm_compute; reflexivity|].
  repeat split; vm_compute; reflexivity.
Qed.

(** ** Further properties of the selectors *)

Section CheckParams.

(** X1.  [_check_params] returns exactly when [num_neighbors] is an int, a
    finite float or positive infinity and [num_features] is an int or a
    finite float; in every other case it raises. *)
Theorem check_params_returns_iff :
  (forall (X : Matrix) (w : world ReliefFSelection.t),
      (ReliefFSelection._check_params X w).1 = Returns tt <->
      bounded_or_convertible (ReliefFSelection.num_neighbors (self w)) = true /\
      int_convertible (ReliefFSelection.num_features (self w)) = true) /\
  (forall (X : Matrix) (w : world MutualInformationSelection.t),
      (MutualInformationSelection._check_params X w).1 = Returns tt <->
      bounded_or_convertible (MutualInformationSelection.num_neighbors (self w)) = true /\
      int_convertible (MutualInformationSelection.num_features (self w)) = true).
Proof.
  split.
  - intros X [[nn nf sup sc] log].
    unfold ReliefFSelection._check_params, np_shape. run.
    cbn [ReliefFSelection.num_neighbors ReliefFSelection.num_features].
    destruct nn as [|k|[q|[|]|]], nf as [|j|[p|b|]]; cbn;
      repeat match goal with
             | |- context [if ?c then _ else _] => destruct c; cbn
             end;
      split; try (intros [? ?]); try discriminate; auto.
  - intros X [[nf nn rs sup] log].
    unfold MutualInformationSelection._check_params, np_shape. run.
    cbn [MutualInformationSelection.num_neighbors
           MutualInformationSelection.num_features].
    destruct nn as [|k|[q|[|]|]], nf as [|j|[p|b|]]; cbn;
      repeat match goal with
             | |- context [if ?c then _ else _] => destruct c; cbn
             end;
      split; try (intros [? ?]); try discriminate; auto.
Qed.

Ltac check_params_cases nn nf :=
  destruct nn as [|?k|[?q|[|]|]], nf as [|?j|[?p|?b|]]; cbn;
  repeat match goal with
         | |- context [if ?c then _ else _] => destruct c eqn:?; cbn
         end;
  try discriminate.

(** After a [_check_params] that returned, [num_neighbors] is an int no
    larger than the number of rows. *)
Lemma ReliefF_check_params_bound (X : Matrix) (w0 w : world ReliefFSelection.t) :
  ReliefFSelection._check_params X w0 = (Returns tt, w) ->
  exists j k,
    ReliefFSelection.num_neighbors (self w) = PyInt j /\
    ReliefFSelection.num_features (self w) = PyInt k /\
    j <= Z.of_nat (length X).
Proof.
  destruct w0 as [[nn nf sup sc] log].
  unfold ReliefFSelection._check_params, np_shape. run.
  cbn [ReliefFSelection.num_neighbors ReliefFSelection.num_features].
  check_params_cases nn nf;
    intros H; injection H as <-; cbn; eexists _, _;
    (split; [reflexivity|]); (split; [reflexivity|]);
    try lia;
    try (match goal with E : (_ <? _) = false |- _ => apply Z.ltb_ge in E end; lia);
    (apply truncation_below; [lia | assumption]).
Qed.

Lemma MI_check_params_bound (X : Matrix)
    (w0 w : world MutualInformationSelection.t) :
  MutualInformationSelection._check_params X w0 = (Returns tt, w) ->
  exists j k,
    MutualInformationSelection.num_neighbors (self w) = PyInt j /\
    MutualInformationSelection.num_features (self w) = PyInt k /\
    j <= Z.of_nat (length X).
Proof.
  destruct w0 as [[nf nn rs sup] log].
  unfold MutualInformationSelection._check_params, np_shape. run.
  cbn [MutualInformationSelection.num_neighbors
         MutualInformationSelection.num_features].
  check_params_cases nn nf;
    intros H; injection H as <-; cbn; eexists _, _;
    (split; [reflexivity|]); (split; [reflexivity|]);
    try lia;
    try (match goal with E : (_ <? _) = false |- _ => apply Z.ltb_ge in E end; lia);
    (apply truncation_below; [lia | assumption]).
Qed.

(** On int attributes with [num_neighbors] within the row count,
    [_check_params] changes nothing, whatever [num_features] is. *)
Lemma ReliefF_check_params_fixed (X : Matrix) (w : world ReliefFSelection.t)
    (j k : Z) :
  ReliefFSelection.num_neighbors (self w) = PyInt j ->
  ReliefFSelection.num_features (self w) = PyInt k ->
  j <= Z.of_nat (length X) ->
  ReliefFSelection._check_params X w = (Returns tt, w).
Proof.
  destruct w as [[nn nf sup sc] log]. cbn. intros -> -> Hj.
  unfold ReliefFSelection._check_params, np_shape. run. cbn.
  apply Z.ltb_ge in Hj. rewrite Hj. cbn.
  destruct (k <? 1); reflexivity.
Qed.

Lemma MI_check_params_fixed (X : Matrix)
    (w : world MutualInformationSelection.t) (j k : Z) :
  MutualInformationSelection.num_neighbors (self w) = PyInt j ->
  MutualInformationSelection.num_features (self w) = PyInt k ->
  j <= Z.of_nat (length X) ->
  MutualInformationSelection._check_params X w = (Returns tt, w).
Proof.
  destruct w as [[nf nn rs sup] log]. cbn. intros -> -> Hj.
  unfold MutualInformationSelection._check_params, np_shape. run. cbn.
  apply Z.ltb_ge in Hj. rewrite Hj. cbn.
  destruct (k <? 1); reflexivity.
Qed.

(** X2.  A second [_check_params] on the same matrix changes nothing: once the
    first call has returned, the attributes are ints, [num_neighbors] is
    within the row count, and [num_features] is left as it is even when it
    is zero or negative. *)
Theorem check_params_idempotent :
  (forall (X : Matrix) (w w1 : world ReliefFSelection.t),
      ReliefFSelection._check_params X w = (Returns tt, w1) ->
      ReliefFSelection._check_params X w1 = (Returns tt, w1)) /\
  (forall (X : Matrix) (w w1 : world MutualInformationSelection.t),
      MutualInformationSelection._check_params X w = (Returns tt, w1) ->
      MutualInformationSelection._check_params X w1 = (Returns tt, w1)).
Proof.
  split; intros X w w1 H.
  - destruct (ReliefF_check_params_bound X w w1 H) as (j & k & Hj & Hk & Hle).
    exact (ReliefF_check_params_fixed X w1 j k Hj Hk Hle).
  - destruct (MI_check_params_bound X w w1 H) as (j & k & Hj & Hk & Hle).
    exact (MI_check_params_fixed X w1 j k Hj Hk Hle).
Qed.

End CheckParams.

Lemma check_params_idempotent_witness :
  let w := {| self := ReliefFSelection.init (PyFloat (Finite (7 # 2))) (PyInt 0);
              warned := [] |} in
  let w1 := {| self := ReliefFSelection.init (PyInt 2) (PyInt 0); warned := [] |} in
  ReliefFSelection._check_params StandIn.X0 w = (Returns tt, w1) /\
  ReliefFSelection._check_params StandIn.X0 w1 = (Returns tt, w1).
Proof.
  intros w w1.
  assert (H : ReliefFSelection._check_params StandIn.X0 w = (Returns tt, w1))
    by (vm_compute; reflexivity).
  split; [exact H|].
  exact (proj1 check_params_idempotent StandIn.X0 w w1 H).
Defined.

Section Fit.
Context {L : Collaborators}.

(** [fit], step by step. *)
Lemma ReliefF_fit_cases (X : Matrix) (y : Target) (w : world ReliefFSelection.t) :
  match ReliefFSelection._check_X_y X y w with
  | (Raises e, w1) => ReliefFSelection.fit X y w = (Raises e, w1)
  | (Returns (X1, y1), w1) =>
      match ReliefFSelection._check_params X1 w1 with
      | (Raises e, w2) => ReliefFSelection.fit X y w = (Raises e, w2)
      | (Returns _, w2) =>
          let '(cand, w3) := ReliefFSelection.candidate X1 y1 w2 in
          match check_support cand X1 with
          | Raises e => ReliefFSelection.fit X y w = (Raises e, w3)
          | Returns s =>
              ReliefFSelection.fit X y w
              = (Returns (ReliefFSelection.set_support (Some s) (self w3)),
                 {| self := ReliefFSelection.set_support (Some s) (self w3);
                    warned := warned w3 |})
          end
      end
  end.
Proof.
  unfold ReliefFSelection.fit, ReliefFSelection.candidate. run.
  destruct (ReliefFSelection._check_X_y X y w) as [[[X1 y1]|e] w1];
    red_run; [|reflexivity].
  destruct (ReliefFSelection._check_params X1 w1) as [[[]|e] w2];
    red_run; [|reflexivity].
  pose proof (ReliefF_select_reads_only X1 y1 w2) as Hw.
  destruct (ReliefFSelection.select X1 y1 w2) as [[cand|e] w3];
    cbn [snd] in Hw; subst w3; red_run;
    destruct (check_support _ X1); reflexivity.
Qed.

(** The wrapper raises exactly what the input check raises. *)
Lemma ReliefF_check_X_y_outcome (X : Matrix) (y : Target)
    (w : world ReliefFSelection.t) :
  match check_X_y X y with
  | Raises e => ReliefFSelection._check_X_y X y w = (Raises e, w)
  | Returns (X1, y1) =>
      exists X2 w1,
        ReliefFSelection._check_X_y X y w = (Returns (X2, y1), w1) /\
        length X2 = length X1 /\
        warned w1 = warned w /\
        ReliefFSelection.num_neighbors (self w1)
        = ReliefFSelection.num_neighbors (self w) /\
        ReliefFSelection.num_features (self w1)
        = ReliefFSelection.num_features (self w) /\
        ReliefFSelection.support (self w1) = ReliefFSelection.support (self w) /\
        match ReliefFSelection.scaler (self w) with
        | Some sc => X2 = X1 /\ ReliefFSelection.scaler (self w1) = Some sc
        | None =>
            X2 = (MinMaxScaler.fit_transform X1).2 /\
            ReliefFSelection.scaler (self w1)
            = Some (MinMaxScaler.fit_transform X1).1
        end
  end.
Proof.
  unfold ReliefFSelection._check_X_y. run.
  destruct (check_X_y X y) as [[X1 y1]|e]; red_run; [|reflexivity].
  destruct w as [[nn nf sup sc] log]. cbn.
  destruct sc as [sc|]; cbn.
  - eexists _, _. split; [reflexivity|]. cbn. repeat split; reflexivity.
  - eexists _, _. split; [reflexivity|]. cbn.
    repeat split; try reflexivity.
    unfold MinMaxScaler.transform. rewrite length_map. reflexivity.
Qed.

(** [_check_params] touches neither the scaler, nor the support, nor the
    warnings, whether it returns or raises. *)
Lemma ReliefF_check_params_frame (X : Matrix) (w : world ReliefFSelection.t) :
  ReliefFSelection.scaler (self (ReliefFSelection._check_params X w).2)
  = ReliefFSelection.scaler (self w) /\
  ReliefFSelection.support (self (ReliefFSelection._check_params X w).2)
  = ReliefFSelection.support (self w) /\
  warned (ReliefFSelection._check_params X w).2 = warned w.
Proof.
  destruct w as [[nn nf sup sc] log].
  unfold ReliefFSelection._check_params, np_shape. run.
  cbn [ReliefFSelection.num_neighbors ReliefFSelection.num_features].
  destruct nn as [|k|[q|[|]|]], nf as [|j|[p|b|]]; cbn;
    repeat match goal with
           | |- context [if ?c then _ else _] => destruct c; cbn
           end;
    repeat split; reflexivity.
Qed.

(** X3.  Errors of [fit].  [ReliefFSelection.fit] raises [e] exactly when
    the input check raises [e], or [_check_params] does, or
    [check_support] does on the candidate; an exception of the selection
    itself never leaves [fit]. *)
Theorem ReliefF_fit_raises_iff :
  forall (X : Matrix) (y : Target) (w : world ReliefFSelection.t) (e : exn),
    (ReliefFSelection.fit X y w).1 = Raises e <->
    check_X_y X y = Raises e \/
    (exists X1 y1 w1,
        ReliefFSelection._check_X_y X y w = (Returns (X1, y1), w1) /\
        ((ReliefFSelection._check_params X1 w1).1 = Raises e \/
         exists w2,
           ReliefFSelection._check_params X1 w1 = (Returns tt, w2) /\
           check_support (ReliefFSelection.candidate X1 y1 w2).1 X1 = Raises e)).
Proof.
  intros X y w e.
  pose proof (ReliefF_fit_cases X y w) as Hfit.
  pose proof (ReliefF_check_X_y_outcome X y w) as Hc.
  destruct (check_X_y X y) as [[X0 y0]|e0].
  - destruct Hc as (X1 & w1 & Hc & _). rewrite Hc in Hfit.
    destruct (ReliefFSelection._check_params X1 w1) as [[[]|e1] w2] eqn:Hp.
    + destruct (ReliefFSelection.candidate X1 y0 w2) as [cand w3] eqn:Hcand.
      destruct (check_support cand X1) as [s|e2] eqn:Hs; rewrite Hfit; cbn [fst].
      * split; [discriminate|].
        intros [H|(X1' & y1' & w1' & H & [H'|(w2' & Hp' & Hs')])];
          [discriminate| |].
        -- rewrite Hc in H; inversion H; subst. rewrite Hp in H'. discriminate.
        -- rewrite Hc in H; inversion H; subst. rewrite Hp in Hp'.
           injection Hp' as <-. rewrite Hcand in Hs'. cbn [fst] in Hs'.
           congruence.
      * split.
        -- intros H. right. exists X1, y0, w1. split; [exact Hc|].
           right. exists w2. split; [exact Hp|].
           rewrite Hcand. cbn [fst]. congruence.
        -- intros [H|(X1' & y1' & w1' & H & [H'|(w2' & Hp' & Hs')])];
             [discriminate| |].
           ++ rewrite Hc in H; inversion H; subst. rewrite Hp in H'. discriminate.
           ++ rewrite Hc in H; inversion H; subst. rewrite Hp in Hp'.
              injection Hp' as <-. rewrite Hcand in Hs'. cbn [fst] in Hs'.
              congruence.
    + rewrite Hfit. cbn [fst]. split.
      * intros H. right. exists X1, y0, w1. split; [exact Hc|].
        left. rewrite Hp. cbn [fst]. congruence.
      * intros [H|(X1' & y1' & w1' & H & [H'|(w2' & Hp' & _)])];
          [discriminate| |].
        -- rewrite Hc in H; inversion H; subst. rewrite Hp in H'.
           cbn [fst] in H'. congruence.
        -- rewrite Hc in H; inversion H; subst. rewrite Hp in Hp'. discriminate.
  - rewrite Hc in Hfit. rewrite Hfit. cbn [fst]. split.
    + intros H. left. congruence.
    + intros [H|(X1' & y1' & w1' & H & _)]; [congruence|].
      rewrite Hc in H. discriminate.
Qed.

(** With [num_neighbors] left at [None] the comparison in
    [_check_params] raises at once. *)
Lemma ReliefF_check_params_none (X : Matrix) (w : world ReliefFSelection.t) :
  ReliefFSelection.num_neighbors (self w) = PyNone ->
  ReliefFSelection._check_params X w
  = (Raises (TypeError "'>' not supported between instances of 'NoneType' and 'int'"),
     w).
Proof.
  intros H. unfold ReliefFSelection._check_params, np_shape. run.
  rewrite H. reflexivity.
Qed.

(** X4.  A selector built without [num_neighbors] cannot be fitted: once the
    input check has accepted the data, [fit] raises the [TypeError] of
    [_check_params], which lies outside the [try] block.  No warning is
    issued and the support is untouched, but a scaler has been set. *)
Theorem ReliefF_fit_without_num_neighbors :
  forall (X : Matrix) (y : Target) (X1 : Matrix) (y1 : Target)
         (w : world ReliefFSelection.t),
    check_X_y X y = Returns (X1, y1) ->
    ReliefFSelection.num_neighbors (self w) = PyNone ->
    exists w',
      ReliefFSelection.fit X y w
      = (Raises (TypeError "'>' not supported between instances of 'NoneType' and 'int'"),
         w') /\
      ReliefFSelection.support (self w') = ReliefFSelection.support (self w) /\
      warned w' = warned w /\
      ReliefFSelection.scaler (self w') <> None.
Proof.
  intros X y X1 y1 w Hc Hn.
  pose proof (ReliefF_fit_cases X y w) as Hfit.
  pose proof (ReliefF_check_X_y_outcome X y w) as Ho.
  rewrite Hc in Ho.
  destruct Ho as (X2 & w1 & Ho & _ & Hw & Hnn & _ & Hsup & Hsc).
  rewrite Ho in Hfit.
  rewrite (ReliefF_check_params_none X2 w1) in Hfit by congruence.
  exists w1. split; [exact Hfit|]. split; [exact Hsup|]. split; [exact Hw|].
  destruct (ReliefFSelection.scaler (self w)); destruct Hsc as [_ ->]; discriminate.
Qed.

(** X5.  A [fit] that returns has issued one warning if the selection raised
    and none if it returned. *)
Theorem ReliefF_fit_warns_iff_selection_failed :
  forall (X : Matrix) (y : Target) (w w' : world ReliefFSelection.t)
         (o : ReliefFSelection.t),
    ReliefFSelection.fit X y w = (Returns o, w') ->
    exists X1 y1 w1 w2,
      ReliefFSelection._check_X_y X y w = (Returns (X1, y1), w1) /\
      ReliefFSelection._check_params X1 w1 = (Returns tt, w2) /\
      warned w'
      = (warned w ++
         if returned (ReliefFSelection.select X1 y1 w2).1 then []
         else ["Failed to select support with ReliefFSelection"])%list.
Proof.
  intros X y w w' o H.
  pose proof (ReliefF_fit_cases X y w) as Hfit.
  destruct (ReliefFSelection._check_X_y X y w) as [[[X1 y1]|e] w1] eqn:Hc;
    [|congruence].
  destruct (ReliefFSelection._check_params X1 w1) as [[[]|e] w2] eqn:Hp;
    [|congruence].
  pose proof (ReliefF_check_X_y_warned _ _ _ _ _ Hc) as W1.
  pose proof (ReliefF_check_params_frame X1 w1) as (_ & _ & W2).
  rewrite Hp in W2. cbn [snd] in W2.
  exists X1, y1, w1, w2. split; [reflexivity|]. split; [exact Hp|].
  unfold ReliefFSelection.candidate in Hfit.
  destruct (ReliefFSelection.select X1 y1 w2).1 as [cand|e];
    destruct (check_support _ X1); rewrite Hfit in H; try discriminate;
    injection H as _ <-; cbn [warned returned].
  - rewrite app_nil_r. congruence.
  - rewrite W2, W1. reflexivity.
Qed.

(** After [_check_X_y] nothing in [fit] touches the scaler. *)
Lemma ReliefF_fit_keeps_check_scaler (X : Matrix) (y : Target)
    (w : world ReliefFSelection.t) :
  ReliefFSelection.scaler (self (ReliefFSelection.fit X y w).2)
  = ReliefFSelection.scaler (self (ReliefFSelection._check_X_y X y w).2).
Proof.
  pose proof (ReliefF_fit_cases X y w) as Hfit.
  destruct (ReliefFSelection._check_X_y X y w) as [[[X1 y1]|e] w1];
    [|rewrite Hfit; reflexivity].
  pose proof (ReliefF_check_params_frame X1 w1) as (Hsc & _ & _).
  destruct (ReliefFSelection._check_params X1 w1) as [[[]|e] w2];
    cbn [snd] in *; [|rewrite Hfit; cbn [snd]; exact Hsc].
  unfold ReliefFSelection.candidate in Hfit.
  destruct (ReliefFSelection.select X1 y1 w2).1 as [cand|e];
    destruct (check_support _ X1); rewrite Hfit; cbn; exact Hsc.
Qed.

(** X6.  The scaler is fitted at most once per instance: a scaler that is set
    survives every later [fit], whatever its outcome; an instance without
    one gets the scaler of the first matrix the input check accepts, and
    keeps none while the check rejects. *)
Theorem ReliefF_scaler_fitted_once :
  forall (X : Matrix) (y : Target) (w : world ReliefFSelection.t),
    (forall sc, ReliefFSelection.scaler (self w) = Some sc ->
       ReliefFSelection.scaler (self (ReliefFSelection.fit X y w).2) = Some sc) /\
    (forall X1 y1, ReliefFSelection.scaler (self w) = None ->
       check_X_y X y = Returns (X1, y1) ->
       ReliefFSelection.scaler (self (ReliefFSelection.fit X y w).2)
       = Some (MinMaxScaler.fit_transform X1).1) /\
    (forall e, ReliefFSelection.scaler (self w) = None ->
       check_X_y X y = Raises e ->
       ReliefFSelection.scaler (self (ReliefFSelection.fit X y w).2) = None).
Proof.
  intros X y w.
  pose proof (ReliefF_fit_keeps_check_scaler X y w) as Hkeep.
  pose proof (ReliefF_check_X_y_outcome X y w) as Ho.
  repeat split.
  - intros sc Hsc. rewrite Hkeep.
    destruct (check_X_y X y) as [[X1 y1]|e].
    + destruct Ho as (X2 & w1 & -> & _ & _ & _ & _ & _ & Ho).
      rewrite Hsc in Ho. cbn [snd]. apply Ho.
    + rewrite Ho. cbn [snd]. exact Hsc.
  - intros X1 y1 Hsc Hc. rewrite Hkeep. rewrite Hc in Ho.
    destruct Ho as (X2 & w1 & -> & _ & _ & _ & _ & _ & Ho).
    rewrite Hsc in Ho. cbn [snd]. apply Ho.
  - intros e Hsc Hc. rewrite Hkeep. rewrite Hc in Ho.
    rewrite Ho. cbn [snd]. exact Hsc.
Qed.

(** X7.  A [fit] that returns leaves both attributes as ints, with
    [num_neighbors] no larger than the number of rows the input check
    passed on. *)
Theorem ReliefF_fit_casts_attributes :
  forall (X : Matrix) (y : Target) (w w' : world ReliefFSelection.t)
         (o : ReliefFSelection.t),
    ReliefFSelection.fit X y w = (Returns o, w') ->
    exists X1 y1 j k,
      check_X_y X y = Returns (X1, y1) /\
      ReliefFSelection.num_neighbors o = PyInt j /\
      ReliefFSelection.num_features o = PyInt k /\
      j <= Z.of_nat (length X1).
Proof.
  intros X y w w' o H.
  pose proof (ReliefF_fit_cases X y w) as Hfit.
  pose proof (ReliefF_check_X_y_outcome X y w) as Ho.
  destruct (check_X_y X y) as [[X1 y1]|e];
    [|rewrite Ho in Hfit; congruence].
  destruct Ho as (X2 & w1 & Hc & Hlen & _). rewrite Hc in Hfit.
  destruct (ReliefFSelection._check_params X2 w1) as [[[]|e] w2] eqn:Hp;
    [|congruence].
  destruct (ReliefF_check_params_bound X2 w1 w2 Hp) as (j & k & Hj & Hk & Hle).
  exists X1, y1, j, k. split; [reflexivity|].
  unfold ReliefFSelection.candidate in Hfit.
  destruct (ReliefFSelection.select X2 y1 w2).1 as [cand|e];
    destruct (check_support _ X2); rewrite Hfit in H; try discriminate;
    injection H as <- _; cbn; repeat split; try assumption; lia.
Qed.

(** X8.  The mutual-information [fit] never calls [_check_params]: whatever
    its outcome, [num_neighbors], [num_features] and [random_state] are
    what they were. *)
Theorem MI_fit_keeps_attributes :
  forall (X : Matrix) (y : Target) (w : world MutualInformationSelection.t),
    let w' := (MutualInformationSelection.fit X y w).2 in
    MutualInformationSelection.num_neighbors (self w')
    = MutualInformationSelection.num_neighbors (self w) /\
    MutualInformationSelection.num_features (self w')
    = MutualInformationSelection.num_features (self w) /\
    MutualInformationSelection.random_state (self w')
    = MutualInformationSelection.random_state (self w).
Proof.
  intros X y w.
  unfold MutualInformationSelection.fit, MutualInformationSelection._check_X_y.
  run.
  destruct (check_X_y X y) as [[X1 y1]|e]; red_run;
    [|repeat split; reflexivity].
  destruct (MI_select_raises X1 y1 w) as (e0 & Hsel & _).
  rewrite Hsel. red_run.
  destruct (check_support [] X1); cbn; repeat split; reflexivity.
Qed.

Lemma ReliefF_check_params_int_features (X : Matrix)
    (w w2 : world ReliefFSelection.t) (k : Z) :
  ReliefFSelection.num_features (self w) = PyInt k ->
  ReliefFSelection._check_params X w = (Returns tt, w2) ->
  ReliefFSelection.num_features (self w2) = PyInt k.
Proof.
  destruct w as [[nn nf sup sc] log]. cbn. intros ->.
  unfold ReliefFSelection._check_params, np_shape. run.
  cbn [ReliefFSelection.num_neighbors ReliefFSelection.num_features].
  destruct nn as [|j|[q|[|]|]]; cbn;
    repeat match goal with
           | |- context [if ?c then _ else _] => destruct c; cbn
           end;
    try discriminate; intros H; injection H as <-; reflexivity.
Qed.

(** X9.  The candidate is an initial segment of the ranking, in ranking
    order: all of it once [num_features] reaches its length, none of it
    for [num_features = 0]. *)
Theorem ReliefF_candidate_is_prefix :
  forall (X : Matrix) (y : Target) (w : world ReliefFSelection.t)
         (top : list Z) (k : Z),
    ReliefFSelection.num_features (self w) = PyInt k ->
    ReliefF_fit (ReliefFSelection.num_neighbors (self w)) (PyInt k) X y
    = Returns top ->
    exists cand rest,
      ReliefFSelection.select X y w = (Returns cand, w) /\
      top = (cand ++ rest)%list /\
      (Z.of_nat (length top) <= k -> cand = top) /\
      (k = 0 -> cand = []).
Proof.
  intros X y w top k Hk Hfit.
  exists (py_slice_to top k).
  exists (if 0 <=? k then drop (Z.to_nat k) top
          else drop (Z.to_nat (Z.of_nat (length top) + k)) top).
  split.
  { unfold ReliefFSelection.select. run. rewrite Hk, Hfit. reflexivity. }
  unfold py_slice_to. destruct (0 <=? k) eqn:E.
  - apply Z.leb_le in E. split; [symmetry; apply take_drop|].
    split.
    + intros Hlen. apply take_ge. lia.
    + intros ->. reflexivity.
  - apply Z.leb_gt in E. split; [symmetry; apply take_drop|].
    split; intros; lia.
Qed.

(** X10.  With [num_features = 0] a [fit] that returns leaves the support of
    the empty candidate, the same as after a failed selection, whether or
    not the selection succeeded. *)
Theorem ReliefF_fit_zero_features :
  forall (X : Matrix) (y : Target) (w w' : world ReliefFSelection.t)
         (o : ReliefFSelection.t),
    ReliefFSelection.num_features (self w) = PyInt 0 ->
    ReliefFSelection.fit X y w = (Returns o, w') ->
    exists X1 y1 w1 s,
      ReliefFSelection._check_X_y X y w = (Returns (X1, y1), w1) /\
      check_support [] X1 = Returns s /\
      ReliefFSelection.support o = Some s.
Proof.
  intros X y w w' o Hk H.
  pose proof (ReliefF_fit_cases X y w) as Hfit.
  pose proof (ReliefF_check_X_y_outcome X y w) as Ho.
  destruct (check_X_y X y) as [[X0 y0]|e];
    [|rewrite Ho in Hfit; congruence].
  destruct Ho as (X1 & w1 & Hc & _ & _ & _ & Hnf & _). rewrite Hc in Hfit.
  rewrite Hk in Hnf.
  destruct (ReliefFSelection._check_params X1 w1) as [[[]|e] w2] eqn:Hp;
    [|congruence].
  pose proof (ReliefF_check_params_int_features X1 w1 w2 0 Hnf Hp) as Hnf2.
  assert (Hcand : (ReliefFSelection.candidate X1 y0 w2).1 = []).
  { unfold ReliefFSelection.candidate, ReliefFSelection.select. run.
    rewrite Hnf2.
    destruct (ReliefF_fit _ _ X1 y0) as [top|e]; reflexivity. }
  destruct (ReliefFSelection.candidate X1 y0 w2) as [cand w3].
  cbn [fst] in Hcand. subst cand.
  exists X1, y0, w1. 
  destruct (check_support [] X1) as [s|e]; [|congruence].
  exists s. rewrite Hfit in H. injection H as <- _.
  split; [exact Hc|]. split; reflexivity.
Qed.

End Fit.

Section Scaling.
Context {L : Collaborators}.

(** X12.  After a [fit] that returned, the instance holds a scaler, so every
    later [_check_X_y] hands on the matrix of the input check unscaled and
    leaves the instance as it is. *)
Theorem ReliefF_refit_uses_raw_matrix :
  forall (X : Matrix) (y : Target) (w w' : world ReliefFSelection.t)
         (o : ReliefFSelection.t),
    ReliefFSelection.fit X y w = (Returns o, w') ->
    forall (X' : Matrix) (y' : Target),
      ReliefFSelection._check_X_y X' y' w' = (check_X_y X' y', w').
Proof.
  intros X y w w' o H X' y'.
  assert (Hsc : exists sc, ReliefFSelection.scaler (self w') = Some sc).
  { pose proof (ReliefF_fit_keeps_check_scaler X y w) as Hkeep.
    pose proof (ReliefF_fit_cases X y w) as Hfit.
    pose proof (ReliefF_check_X_y_outcome X y w) as Ho.
    rewrite H in Hkeep. cbn [snd] in Hkeep. rewrite Hkeep.
    destruct (check_X_y X y) as [[X1 y1]|e].
    - destruct Ho as (X2 & w1 & -> & _ & _ & _ & _ & _ & Ho). cbn [snd].
      destruct (ReliefFSelection.scaler (self w)); destruct Ho as [_ ->]; eauto.
    - rewrite Ho in Hfit. congruence. }
  destruct Hsc as [sc Hsc].
  exact (ReliefF_check_X_y_with_scaler X' y' w' sc Hsc).
Qed.

End Scaling.

(** ** The further properties on a concrete run *)

Lemma check_params_returns_iff_witness :
  (ReliefFSelection._check_params StandIn.X0
     {| self := ReliefFSelection.init (PyFloat (Infinity false)) (PyInt 1);
        warned := [] |}).1 = Returns tt.
Proof.
  apply (proj1 check_params_returns_iff). split; reflexivity.
Defined.

Lemma ReliefF_fit_raises_iff_witness :
  (@ReliefFSelection.fit StandIn.library [] []
     {| self := ReliefFSelection.init (PyInt 2) (PyInt 1); warned := [] |}).1
  = Raises (ValueError "Found array with 0 sample(s) or 0 feature(s)").
Proof.
  apply (@ReliefF_fit_raises_iff StandIn.library). left. reflexivity.
Defined.

Lemma ReliefF_fit_without_num_neighbors_witness :
  let w := {| self := ReliefFSelection.init PyNone PyNone; warned := [] |} in
  exists w',
    @ReliefFSelection.fit StandIn.library StandIn.X0 StandIn.y0 w
    = (Raises (TypeError "'>' not supported between instances of 'NoneType' and 'int'"),
       w') /\
    ReliefFSelection.support (self w') = None /\
    warned w' = [].
Proof.
  intros w.
  destruct (@ReliefF_fit_without_num_neighbors StandIn.library
              StandIn.X0 StandIn.y0 StandIn.X0 StandIn.y0 w)
    as (w' & H & Hs & Hw & _); [reflexivity | reflexivity |].
  exists w'. auto.
Defined.

Lemma ReliefF_fit_warns_iff_selection_failed_witness :
  let w := {| self := ReliefFSelection.init (PyInt 2) (PyInt 1); warned := [] |} in
  exists o w',
    @ReliefFSelection.fit StandIn.library StandIn.X0 StandIn.y0 w = (Returns o, w') /\
    warned w' = [].
Proof.
  intros w.
  destruct (@ReliefFSelection.fit StandIn.library StandIn.X0 StandIn.y0 w)
    as [[o|e] w'] eqn:H; [|vm_compute in H; discriminate].
  exists o, w'. split; [reflexivity|].
  destruct (@ReliefF_fit_warns_iff_selection_failed StandIn.library
              StandIn.X0 StandIn.y0 w w' o H) as (X1 & y1 & w1 & w2 & Hc & Hp & Hw).
  vm_compute in Hc. injection Hc as <- <- <-.
  vm_compute in Hp. injection Hp as <-.
  rewrite Hw. vm_compute. reflexivity.
Defined.

Lemma ReliefF_scaler_fitted_once_witness :
  let w := {| self := ReliefFSelection.init (PyInt 2) (PyInt 1); warned := [] |} in
  ReliefFSelection.scaler
    (self (@ReliefFSelection.fit StandIn.library StandIn.X0 StandIn.y0 w).2)
  = Some {| MinMaxScaler.fitted := Some ([1 # 4; 1 # 20], [0; - (1 # 2)])%Q |}.
Proof.
  intros w.
  destruct (@ReliefF_scaler_fitted_once StandIn.library StandIn.X0 StandIn.y0 w)
    as (_ & H & _).
  rewrite (H StandIn.X0 StandIn.y0); [|reflexivity|reflexivity].
  vm_compute. reflexivity.
Defined.

Lemma ReliefF_fit_casts_attributes_witness :
  let w := {| self := ReliefFSelection.init (PyFloat (Finite (7 # 2)))
                        (PyFloat (Finite (3 # 2)));
              warned := [] |} in
  exists o w' j k,
    @ReliefFSelection.fit StandIn.library StandIn.X0 StandIn.y0 w = (Returns o, w') /\
    ReliefFSelection.num_neighbors o = PyInt j /\
    ReliefFSelection.num_features o = PyInt k /\
    j <= 3.
Proof.
  intros w.
  destruct (@ReliefFSelection.fit StandIn.library StandIn.X0 StandIn.y0 w)
    as [[o|e] w'] eqn:H; [|vm_compute in H; discriminate].
  destruct (@ReliefF_fit_casts_attributes StandIn.library
              StandIn.X0 StandIn.y0 w w' o H)
    as (X1 & y1 & j & k & Hc & Hj & Hk & Hle).
  vm_compute in Hc. injection Hc as <- <-.
  exists o, w', j, k. auto.
Defined.

Lemma ReliefF_candidate_is_prefix_witness :
  let w := {| self := ReliefFSelection.init (PyInt 2) (PyInt 5); warned := [] |} in
  exists cand,
    @ReliefFSelection.select StandIn.library StandIn.X0 StandIn.y0 w
    = (Returns cand, w) /\
    cand = [1; 0].
Proof.
  intros w.
  destruct (@ReliefF_candidate_is_prefix StandIn.library
              StandIn.X0 StandIn.y0 w [1; 0] 5)
    as (cand & rest & Hsel & _ & Hall & _); [reflexivity | reflexivity |].
  exists cand. split; [exact Hsel|]. apply Hall. simpl. lia.
Defined.

Lemma ReliefF_fit_zero_features_witness :
  let w := {| self := ReliefFSelection.init (PyInt 2) (PyInt 0); warned := [] |} in
  exists o w',
    @ReliefFSelection.fit StandIn.library StandIn.X0 StandIn.y0 w = (Returns o, w') /\
    ReliefFSelection.support o = Some [0; 1] /\
    warned w' = [].
Proof.
  intros w.
  destruct (@ReliefFSelection.fit StandIn.library StandIn.X0 StandIn.y0 w)
    as [[o|e] w'] eqn:H; [|vm_compute in H; discriminate].
  exists o, w'. split; [reflexivity|].
  destruct (@ReliefF_fit_zero_features StandIn.library
              StandIn.X0 StandIn.y0 w w' o eq_refl H)
    as (X1 & y1 & w1 & s & Hc & Hs & Ho).
  vm_compute in Hc. injection Hc as <- <- <-.
  vm_compute in Hs. injection Hs as <-.
  split; [exact Ho|].
  vm_compute in H. injection H as _ <-. reflexivity.
Defined.

Lemma activation_is_exact_witness :
  let cfg : gmap string pyconst :=
    list_to_map [("kernel", KStr "linear"); ("gamma", KStr "value")] in
  active (Registry.returned_space Registry.SVC) cfg "gamma_value" = true /\
  active (Registry.returned_space Registry.SVC) cfg "gamma" = false /\
  active (Registry.returned_space Registry.SVC) cfg "kernel" = true.
Proof.
  intros cfg.
  destruct (activation_is_exact (Registry.returned_space Registry.SVC)
              (Registry.returned_space Registry.KNN) cfg)
    as (Hk & _ & _ & _ & Hg & Hgv & _);
    [vm_compute; reflexivity | vm_compute; reflexivity |].
  split; [apply Hgv; vm_compute; reflexivity|].
  split; [|exact Hk].
  apply not_true_is_false. intros E.
  apply Hg in E. destruct E as (s & Hs & Hin).
  vm_compute in Hs. injection Hs as <-.
  cbn [In] in Hin. repeat (destruct Hin as [Hin|Hin]; [discriminate Hin|]).
  destruct Hin.
Defined.

Lemma ReliefF_refit_uses_raw_matrix_witness :
  let w := {| self := ReliefFSelection.init (PyInt 2) (PyInt 1); warned := [] |} in
  exists o w',
    @ReliefFSelection.fit StandIn.library StandIn.X0 StandIn.y0 w = (Returns o, w') /\
    @ReliefFSelection._check_X_y StandIn.library StandIn.X0 StandIn.y0 w'
    = (Returns (StandIn.X0, StandIn.y0), w').
Proof.
  intros w.
  destruct (@ReliefFSelection.fit StandIn.library StandIn.X0 StandIn.y0 w)
    as [[o|e] w'] eqn:H; [|vm_compute in H; discriminate].
  exists o, w'. split; [reflexivity|].
  exact (@ReliefF_refit_uses_raw_matrix StandIn.library
           StandIn.X0 StandIn.y0 w w' o H StandIn.X0 StandIn.y0).
Defined.
